(** * studentnumber_easypeasy: the rate tables, the estimator and the ledger

    A shallow embedding of [studentnumber_easypeasy_web.py].  The Streamlit
    session state becomes a record that every operation receives and
    returns; what an operation shows on its tab ([tab.error], [tab.warning],
    [tab.success], [tab.markdown]) becomes part of the outcome it returns.

    Python numbers are modelled as they are at run time: an [int] is a [Z],
    a [float] is an IEEE 754 binary64 value (the kernel's [float]); every
    arithmetic step of the source is the corresponding binary64 operation,
    and the conversions Python makes silently ([int] to [float] in a mixed
    product, [int / int] as a true division) are written out.  An exception
    is a value of the result type.  Nested dictionaries keyed by strings are
    [gmap string _]; strings are the UTF-8 bytes of the Python [str].

    What the model fixes:
    - both rate tables have four levels of dictionaries above their leaves,
      and a leaf is a dictionary from field names to numbers (a table built
      by [process_excel] always is; one read from the JSON file is assumed
      to be), so the [isinstance] test of [get_node] always passes;
    - [st.session_state.calculated_results] exists (the script creates it
      before anything else runs);
    - the DataFrame has text in its five key columns; [process_excel] is
      the import of a sheet with [float64] numbers in its four rate columns,
      a blank cell being NaN, where no conversion in the loop can raise, and
      [process_excel_raw] is the import of a sheet whose rate cells may
      also hold text, with the [except] branch of the source;
    - what a select box returns is a string, the empty string standing for
      the [None] of a box without options; [sorted] orders strings by code
      point, which for UTF-8 text is the order of the bytes;
    - of [main], the block that triggers a calculation, the rows of the
      export and the handler of the delete button are modelled, each as
      one run of the script; what a widget returned in that run is an
      argument;
    - reading and writing files, logging and the layout of the page are
      left out. *)

From Stdlib Require Import Ascii String ZArith Floats Lia.
From Stdlib Require Uint63.
From stdpp Require Import gmap strings list fin_maps pretty sorting.

(* A decimal literal stands for the nearest binary64 value, as in Python. *)
Set Warnings "-inexact-float".
Local Open Scope Z_scope.

(** ** Python numbers *)

Module Py.

(** The exceptions the modelled code can raise. *)
Inductive exn :=
  | ValueError        (* round(nan), int(nan) *)
  | OverflowError     (* round(inf), int(inf), an int too large for a float *)
  | ZeroDivisionError
  | IndexError.

Inductive result (A : Type) :=
  | Ok (a : A)
  | Raise (e : exn).
Arguments Ok {A} a.
Arguments Raise {A} e.

#[global] Instance result_ret : MRet result := fun A a => Ok a.
#[global] Instance result_bind : MBind result := fun A B k r =>
  match r with
  | Ok a => k a
  | Raise e => Raise e
  end.

Inductive num :=
  | PInt (z : Z)
  | PFloat (f : float).

(** [rhe_scaled m e]: the integer nearest to [m * 2^e] ([0 <= m]), a tie
    going to the even neighbour.  Both [round(x)] and the two-decimal
    conversions of a float round its exact binary value this way. *)
Definition rhe_scaled (m e : Z) : Z :=
  match e with
  | Zneg p =>
      let d := 2 ^ Zpos p in
      let q := m / d in
      let r := m mod d in
      match 2 * r ?= d with
      | Lt => q
      | Gt => q + 1
      | Eq => if Z.even q then q else q + 1
      end
  | _ => m * 2 ^ e
  end.

(** [m * 2^e] truncated toward zero ([0 <= m]). *)
Definition trunc_scaled (m e : Z) : Z :=
  match e with
  | Zneg p => m / 2 ^ Zpos p
  | _ => m * 2 ^ e
  end.

(** [float(z)] for an [int]: the nearest binary64 value, ties to even;
    [OverflowError] when it would be infinite. *)
Definition float_of_int (z : Z) : result float :=
  match binary_normalize prec emax z 0 false with
  | S754_infinity _ => Raise OverflowError
  | sf => Ok (SF2Prim sf)
  end.

(** [a / b] for two [int]s: the correctly rounded quotient. *)
Definition int_truediv (a b : Z) : result float :=
  match a, b with
  | _, Z0 => Raise ZeroDivisionError
  | Z0, _ => Ok (if b <? 0 then neg_zero else zero)
  | _, _ =>
      match SFdiv prec emax (S754_finite (a <? 0) (Z.to_pos (Z.abs a)) 0)
                            (S754_finite (b <? 0) (Z.to_pos (Z.abs b)) 0) with
      | S754_infinity _ => Raise OverflowError
      | sf => Ok (SF2Prim sf)
      end
  end.

(** [a * b] *)
Definition mul (a b : num) : result num :=
  match a, b with
  | PInt x, PInt y => Ok (PInt (x * y))
  | PInt x, PFloat g => f ← float_of_int x; Ok (PFloat (f * g)%float)
  | PFloat f, PInt y => g ← float_of_int y; Ok (PFloat (f * g)%float)
  | PFloat f, PFloat g => Ok (PFloat (f * g)%float)
  end.

Definition float_truediv (f g : float) : result float :=
  if is_zero g then Raise ZeroDivisionError else Ok (f / g)%float.

(** [a / b] *)
Definition truediv (a b : num) : result num :=
  match a, b with
  | PInt x, PInt y => q ← int_truediv x y; Ok (PFloat q)
  | PInt x, PFloat g => f ← float_of_int x; q ← float_truediv f g; Ok (PFloat q)
  | PFloat f, PInt y => g ← float_of_int y; q ← float_truediv f g; Ok (PFloat q)
  | PFloat f, PFloat g => q ← float_truediv f g; Ok (PFloat q)
  end.

(** [round(x)] with no [ndigits]: an [int]. *)
Definition round_float (f : float) : result Z :=
  match Prim2SF f with
  | S754_nan => Raise ValueError
  | S754_infinity _ => Raise OverflowError
  | S754_zero _ => Ok 0
  | S754_finite s m e => Ok (cond_Zopp s (rhe_scaled (Zpos m) e))
  end.

Definition round (x : num) : result Z :=
  match x with
  | PInt z => Ok z
  | PFloat f => round_float f
  end.

(** [int(x)]: truncation toward zero. *)
Definition int (x : num) : result Z :=
  match x with
  | PInt z => Ok z
  | PFloat f =>
      match Prim2SF f with
      | S754_nan => Raise ValueError
      | S754_infinity _ => Raise OverflowError
      | S754_zero _ => Ok 0
      | S754_finite s m e => Ok (cond_Zopp s (trunc_scaled (Zpos m) e))
      end
  end.

(** [round(x, 2)] for a [float]: the binary64 value nearest to the decimal
    obtained by rounding the exact value of [x] to two places (ties to
    even); NaN and the infinities round to themselves, and a result of zero
    keeps the sign of [x]. *)
Definition round2 (f : float) : float :=
  match Prim2SF f with
  | S754_finite s m e =>
      match rhe_scaled (Zpos m * 100) e with
      | Zpos n => SF2Prim (SFdiv prec emax (S754_finite s n 0) (S754_finite false 100 0))
      | _ => if s then neg_zero else zero
      end
  | _ => f
  end.

End Py.

(** ** Strings and number formatting *)

Local Open Scope string_scope.

Definition nl : string := String "010"%char "".

Definition is_space (c : ascii) : bool := bool_decide (c = " "%char).

(** [s.split(" ")]: one field per separator, empty fields kept. *)
Fixpoint split_space (s : string) : list string :=
  match s with
  | "" => [""]
  | String c s' =>
      if is_space c then "" :: split_space s'
      else match split_space s' with
           | w :: ws => String c w :: ws
           | [] => [String c ""]
           end
  end.

(** [" " in s] *)
Fixpoint has_space (s : string) : bool :=
  match s with
  | "" => false
  | String c s' => is_space c || has_space s'
  end.

(** Thousands separators, on the digits from the least significant one. *)
Fixpoint commas (rev_digits : list ascii) : list ascii :=
  match rev_digits with
  | a :: b :: c :: rest =>
      match rest with
      | [] => [a; b; c]
      | _ => a :: b :: c :: ","%char :: commas rest
      end
  | _ => rev_digits
  end.

(** [f"{z:,}"] for an [int]. *)
Definition format_int (z : Z) : string :=
  (if (z <? 0)%Z then "-" else "") +:+
  string_of_list_ascii
    (reverse (commas (reverse (list_ascii_of_string (pretty (Z.abs z)))))).

(** [format_number(number)]: [f"{int(number):,}"]. *)
Definition format_number (number : Py.num) : Py.result string :=
  z ← Py.int number; Py.Ok (format_int z).

Definition two_digits (n : Z) : string :=
  (if (n <? 10)%Z then "0" else "") +:+ pretty n.

(** [f"{x:.2f}"] for a [float]: the exact value rounded to two places, ties
    to even, with the sign kept even when every digit is zero. *)
Definition fixed2 (f : float) : string :=
  match Prim2SF f with
  | S754_nan => "nan"
  | S754_infinity s => (if s then "-" else "") +:+ "inf"
  | S754_zero s => (if s then "-" else "") +:+ "0.00"
  | S754_finite s m e =>
      let n := Py.rhe_scaled (Zpos m * 100) e in
      (if s then "-" else "") +:+ pretty (n / 100) +:+ "." +:+ two_digits (n mod 100)
  end.

(** [format_percentage(number)]: [f"{number:.2f}"]; an [int] is converted to
    a [float] first. *)
Definition format_percentage (number : Py.num) : Py.result string :=
  match number with
  | Py.PFloat f => Py.Ok (fixed2 f)
  | Py.PInt z => f ← Py.float_of_int z; Py.Ok (fixed2 f)
  end.

(** ** Session state *)

(** A leaf of a rate table: the dictionary [{"초등": e, "중등": m}], or
    [{"인원": p, "발생률": r}] in the high-school table.  A table loaded
    from the JSON file may hold leaves with fewer keys. *)
Abbreviation entry := (gmap string Py.num).

(** [region -> housing type -> supply type -> scale -> leaf]. *)
Abbreviation table := (gmap string (gmap string (gmap string (gmap string entry)))).

(** One dictionary of [st.session_state.calculated_results]. *)
Record result_row := {
  res_city : string;          (* "시" *)
  res_region : string;        (* "지역" *)
  res_housing_type : string;  (* "주택유형" *)
  res_subtype : string;       (* "공급유형" *)
  res_scale : string;         (* "주택규모" *)
  res_units : Z;              (* "세대수" *)
  res_kindergarten : Z;       (* "유치원생" *)
  res_elementary : Z;         (* "초등학생" *)
  res_middle : Z;             (* "중학생" *)
  res_high : Z                (* "고등학생" *)
}.

Record session_state := {
  rates : table;
  high_school_rates : table;
  calculated_results : list result_row
}.

Definition with_results (st : session_state) (l : list result_row) : session_state :=
  {| rates := rates st;
     high_school_rates := high_school_rates st;
     calculated_results := l |}.

Definition with_tables (st : session_state) (r h : table) : session_state :=
  {| rates := r;
     high_school_rates := h;
     calculated_results := calculated_results st |}.

(** What an operation shows on its tab. *)
Inductive ui :=
  | error (msg : string)
  | warning (msg : string)
  | success (msg : string)
  | markdown (msg : string).

Inductive outcome :=
  | Rejected (shown : ui)
  | Raised (shown : list ui) (e : Py.exn)
  | Succeeded (shown : list ui).

(** ** Data access *)

Definition path := (string * string * string * string)%type.

Definition lookup4 (data : table) (p : path) : option entry :=
  let '(region, housing_type, subtype, scale) := p in
  types ← data !! region;
  subtypes ← types !! housing_type;
  scales ← subtypes !! subtype;
  scales !! scale.

(** [get_node(data, [region, housing_type, subtype, scale], default)] *)
Definition get_node (data : table) (p : path) (default_ : entry) : entry :=
  default default_ (lookup4 data p).

(** [not d] for a dictionary. *)
Definition dict_falsy (d : entry) : bool := bool_decide (size d = 0%nat).

(** [not s] for a string. *)
Definition str_falsy (s : string) : bool := bool_decide (s = "").

(** ** Selection lists *)

(** The order of [sorted] on [str]: by code point, which on UTF-8 text is
    the order of the bytes. *)
Definition str_le (a b : string) : Prop := String.leb a b = true.

Global Instance str_le_dec (a b : string) : Decision (str_le a b) :=
  decide (String.leb a b = true).

(** [sorted(l)] for strings without repeats: the result of a sort does not
    depend on the algorithm then. *)
Definition sorted (l : list string) : list string := merge_sort str_le l.

(** [d.keys()] *)
Definition keys {V} (d : gmap string V) : list string := (map_to_list d).*1.

(** [region.split(" ")[0]] *)
Definition first_field (region : string) : string := default "" (head (split_space region)).

(** [r.startswith(city)] *)
Definition startswith (r city : string) : bool := String.prefix city r.

(** [get_cities()], lines 132-139; every value of the table is a
    dictionary. *)
Definition get_cities (st : session_state) : list string :=
  sorted (remove_dups (first_field <$> keys (rates st))).

(** [get_regions(city)], lines 141-142. *)
Definition get_regions (st : session_state) (city : string) : list string :=
  sorted (filter (fun r => startswith r city = true) (keys (rates st))).

(** [get_types(region)], lines 144-145. *)
Definition get_types (st : session_state) (region : string) : list string :=
  sorted (keys (default ∅ (rates st !! region))).

(** [get_subtypes(region, housing_type)], lines 147-150. *)
Definition get_subtypes (st : session_state) (region housing_type : string) : list string :=
  sorted (keys (default ∅ (default ∅ (rates st !! region) !! housing_type))).

(** [get_scales(region, housing_type, subtype)], lines 152-158. *)
Definition get_scales (st : session_state) (region housing_type subtype : string)
  : list string :=
  sorted (keys (default ∅ (default ∅ (default ∅ (rates st !! region) !! housing_type)
                           !! subtype))).

(** ** Estimator *)

Definition msg_select_all : string := "❌ 모든 항목을 선택해주세요.".
Definition msg_units : string := "⚠️ 세대 수는 1 이상이어야 합니다!".
Definition msg_no_rate : string := "⚠️ 해당 조합의 학생 발생률이 설정되지 않았습니다!".
Definition msg_no_high_school : string := "⚠️ 해당 조합의 고등-학생 점유율이 설정되지 않았습니다!".

Record counts := {
  cnt_e : Z;
  cnt_k : Z;
  cnt_m : Z;
  cnt_h : Z
}.

(** Lines 184-187. *)
Definition student_counts (units : Z) (e_rate m_rate high_school_personnel high_school_rate : Py.num)
  : Py.result counts :=
  x ← Py.mul (Py.PInt units) e_rate;
  x ← Py.truediv x (Py.PInt 100);
  e ← Py.round x;
  x ← Py.mul (Py.PInt e) (Py.PFloat 0.5);
  k ← Py.round x;
  x ← Py.mul (Py.PInt units) m_rate;
  x ← Py.truediv x (Py.PInt 100);
  m ← Py.round x;
  x ← Py.mul (Py.PInt units) high_school_personnel;
  x ← Py.mul x high_school_rate;
  x ← Py.truediv x (Py.PInt 100);
  h ← Py.round x;
  Py.Ok {| cnt_e := e; cnt_k := k; cnt_m := m; cnt_h := h |}.

(** Line 188. *)
Definition h_basis_text (high_school_personnel high_school_rate : Py.num) : Py.result string :=
  a ← format_number high_school_personnel;
  b ← format_percentage high_school_rate;
  Py.Ok ("세대수 X " +:+ a +:+ "명 X " +:+ b +:+ "%").

(** Lines 190-194: only [int]s are formatted. *)
Definition result_table_text (housing_type subtype scale : string) (units : Z) (c : counts) : string :=
  nl +:+
  "| 주택유형         | 공급유형 | 주택규모 | 세대수 | 유치원생 | 초등학생 | 중학생 | 고등학생 |" +:+ nl +:+
  "| :-------------: | :------: | :------: | :----: | :------: | :------: | :----: | :------: |" +:+ nl +:+
  "| " +:+ housing_type +:+ " | " +:+ subtype +:+ " | " +:+ scale +:+ "  | " +:+
  format_int units +:+ " | " +:+ format_int (cnt_k c) +:+ "명 | " +:+
  format_int (cnt_e c) +:+ "명 | " +:+ format_int (cnt_m c) +:+ "명 | " +:+
  format_int (cnt_h c) +:+ "명 |" +:+ nl.

(** Lines 197-203. *)
Definition calculation_basis_text (region : string) (e_rate m_rate : Py.num) (h_basis : string)
  : Py.result string :=
  a ← format_percentage e_rate;
  b ← format_percentage m_rate;
  Py.Ok (nl +:+
    "📝 **예상 학생 수 계산 근거**:" +:+ nl +:+
    "- **유치원생**: 예상 초등학생 수 X 50%" +:+ nl +:+
    "- **초등학생**: 세대수 X 초등학생 발생률 " +:+ a +:+ "%(" +:+ region +:+ " 발생률 적용)" +:+ nl +:+
    "- **중학생**: 세대수 X 중학생 발생률 " +:+ b +:+ "%(" +:+ region +:+ " 발생률 적용)" +:+ nl +:+
    "- **고등학생**: " +:+ h_basis +:+ nl).

Definition mk_result (city region housing_type subtype scale : string) (units : Z) (c : counts)
  : result_row :=
  {| res_city := city; res_region := region; res_housing_type := housing_type;
     res_subtype := subtype; res_scale := scale; res_units := units;
     res_kindergarten := cnt_k c; res_elementary := cnt_e c;
     res_middle := cnt_m c; res_high := cnt_h c |}.

(** [calculate_student_counts(city, region, housing_type, subtype, scale,
    units, tab)], lines 161-222.  An exception leaves the function before
    the ledger is touched; what had been shown by then is kept in
    [Raised]. *)
Definition calculate_student_counts
    (city region housing_type subtype scale : string) (units : Z)
    (st : session_state) : session_state * outcome :=
  if existsb str_falsy [city; region; housing_type; subtype; scale] then
    (st, Rejected (error msg_select_all))
  else if (units <=? 0)%Z then
    (st, Rejected (warning msg_units))
  else
    let data := get_node (rates st) (region, housing_type, subtype, scale) ∅ in
    if dict_falsy data then (st, Rejected (warning msg_no_rate))
    else
      let high_school_data :=
        get_node (high_school_rates st) (region, housing_type, subtype, scale) ∅ in
      if dict_falsy high_school_data then (st, Rejected (warning msg_no_high_school))
      else
        let e_rate := default (Py.PInt 0) (data !! "초등") in
        let m_rate := default (Py.PInt 0) (data !! "중등") in
        let high_school_personnel := default (Py.PInt 0) (high_school_data !! "인원") in
        let high_school_rate := default (Py.PInt 0) (high_school_data !! "발생률") in
        match
          c ← student_counts units e_rate m_rate high_school_personnel high_school_rate;
          h_basis ← h_basis_text high_school_personnel high_school_rate;
          Py.Ok (c, h_basis)
        with
        | Py.Raise e => (st, Raised [] e)
        | Py.Ok (c, h_basis) =>
            let shown :=
              success ("✅ 예상 학생 수:" +:+ nl +:+
                       result_table_text housing_type subtype scale units c) in
            match calculation_basis_text region e_rate m_rate h_basis with
            | Py.Raise e => (st, Raised [shown] e)
            | Py.Ok calculation_basis =>
                (with_results st
                   (calculated_results st ++
                    [mk_result city region housing_type subtype scale units c]),
                 Succeeded [shown; markdown calculation_basis])
            end
        end.

(** ** The calculation trigger of [main] *)

(** The session keys that lines 362-396 read and write beside the tables
    and the ledger: the unit count of the number input, the count that
    its [on_change] callback copied, and the count of the last
    calculation, a key that is absent until the first one. *)
Record calc_state := {
  cs_session : session_state;
  cs_c_units : Z;
  cs_units_inputted : Z;
  cs_last_calculated_units : option Z
}.

Definition msg_need_all : string := "❌ 계산에 필요한 모든 값을 입력해주세요.".

(** The [on_change] callback of the number input, lines 372-374. *)
Definition units_on_change (cs : calc_state) : calc_state :=
  {| cs_session := cs_session cs; cs_c_units := cs_c_units cs;
     cs_units_inputted := cs_c_units cs;
     cs_last_calculated_units := cs_last_calculated_units cs |}.

(** The condition of lines 380-383; [button] is what [calc_tab.button]
    returned in this run of the script. *)
Definition calc_triggered (button : bool) (cs : calc_state) : bool :=
  button
  || (negb (cs_units_inputted cs =? 0)%Z
      && negb (cs_units_inputted cs =? default (-1) (cs_last_calculated_units cs))%Z).

(** Lines 380-396 in one run of the script.  An exception of the
    estimator leaves the script before lines 393-394. *)
Definition calc_block (button : bool) (city region housing_type subtype scale : string)
    (cs : calc_state) : calc_state * option outcome :=
  if calc_triggered button cs then
    if negb (str_falsy scale) then
      match calculate_student_counts city region housing_type subtype scale
              (cs_c_units cs) (cs_session cs) with
      | (st', Raised shown e) =>
          ({| cs_session := st'; cs_c_units := cs_c_units cs;
              cs_units_inputted := cs_units_inputted cs;
              cs_last_calculated_units := cs_last_calculated_units cs |},
           Some (Raised shown e))
      | (st', out) =>
          ({| cs_session := st'; cs_c_units := cs_c_units cs;
              cs_units_inputted := 0;
              cs_last_calculated_units := Some (cs_c_units cs) |},
           Some out)
      end
    else (cs, Some (Rejected (error msg_need_all)))
  else (cs, None).

(** ** Table import *)

(** One row of the DataFrame that [pd.read_excel] returned.  The five key
    cells are text cells, so [str(cell)] is the cell; the four rate cells
    are [float64] cells, a blank one being NaN.  Rows with text in a rate
    cell are [sheet_row] below. *)
Record row := {
  row_city : string;          (* row["시"] *)
  row_region : string;        (* row["지역"] *)
  row_housing_type : string;  (* row["주택유형"] *)
  row_subtype : string;       (* row["공급유형"] *)
  row_scale : string;         (* row["주택규모"] *)
  row_elementary : float;     (* row["초등"] *)
  row_middle : float;         (* row["중등"] *)
  row_hs_personnel : float;   (* row.get("고등-세대당 인구수") *)
  row_hs_rate : float         (* row.get("고등-학생 점유율") *)
}.

Record DataFrame := {
  columns : list string;
  df_rows : list row
}.

Definition required_cols : list string :=
  ["시"; "지역"; "주택유형"; "공급유형"; "주택규모"; "초등"; "중등";
   "고등-세대당 인구수"; "고등-학생 점유율"].

Definition msg_missing_cols : string :=
  "❌ 엑셀에 필수 열(시, 지역, 주택유형, 공급유형, 주택규모, 초등, 중등, 고등-세대당 인구수, 고등-학생 점유율)이 부족합니다.".

(** [required_cols.issubset(df.columns)] *)
Definition issubset (cols header : list string) : bool :=
  forallb (fun c => bool_decide (c ∈ header)) cols.

(** [pd.notna(x)] for a [float64] cell. *)
Definition notna (x : float) : bool := negb (is_nan x).

(** [t.setdefault(region, {}); t[region].setdefault(h, {});
    t[region][h].setdefault(s, {})[sc] = v], lines 257-259 and 265-270. *)
Definition store4 (t : table) (p : path) (v : entry) : table :=
  let '(region, h, s, sc) := p in
  let types := default ∅ (t !! region) in
  let subtypes := default ∅ (types !! h) in
  let scales := default ∅ (subtypes !! s) in
  <[region := <[h := <[s := <[sc := v]> scales]> subtypes]> types]> t.

(** [set_node(data, path, value)], lines 125-129, on a path of four keys
    with a leaf as the value: every level on the way is created when it is
    missing ([setdefault]) and the leaf is stored at the last key. *)
Definition set_node (data : table) (p : path) (value : entry) : table :=
  store4 data p value.

(** [f"{city} {r}"] *)
Definition full_region (r : row) : string := row_city r +:+ " " +:+ row_region r.

Definition row_path (r : row) : path :=
  (full_region r, row_housing_type r, row_subtype r, row_scale r).

Definition rate_entry (r : row) : entry :=
  {[ "초등" := Py.PFloat (Py.round2 (row_elementary r));
     "중등" := Py.PFloat (Py.round2 (row_middle r)) ]}.

Definition high_school_entry (r : row) : entry :=
  {[ "인원" := Py.PFloat (Py.round2 (row_hs_personnel r));
     "발생률" := Py.PFloat (Py.round2 (row_hs_rate r)) ]}.

(** The test of line 264; a [float64] cell is never equal to [""]. *)
Definition has_high_school (r : row) : bool :=
  notna (row_hs_personnel r) && notna (row_hs_rate r).

(** The body of the loop of lines 247-270. *)
Definition import_row (acc : table * table) (r : row) : table * table :=
  let new_rates := store4 acc.1 (row_path r) (rate_entry r) in
  let new_high_school_rates :=
    if has_high_school r then store4 acc.2 (row_path r) (high_school_entry r)
    else acc.2 in
  (new_rates, new_high_school_rates).

Definition import_rows (l : list row) : table * table :=
  foldl import_row (∅, ∅) l.

Definition msg_imported (n : nat) : string :=
  "✅ " +:+ format_int (Z.of_nat n) +:+ "개 조합 저장 및 업데이트 완료!".

(** [process_excel(file, tab)] once the file has been read, lines 228-277,
    on a DataFrame of numbers: no conversion raises, so the [except] branch
    is not reached.  [process_excel_raw] below has it. *)
Definition process_excel (df : DataFrame) (st : session_state) : session_state * outcome :=
  if negb (issubset required_cols (columns df)) then
    (st, Rejected (error msg_missing_cols))
  else
    let new := import_rows (df_rows df) in
    (with_tables st new.1 new.2, Succeeded [success (msg_imported (length (df_rows df)))]).

(** *** Sheets with text in the rate cells *)

(** A cell of one of the four rate columns as [pd.read_excel] returned it:
    a number (NaN for a blank cell) or text.  Which texts [float] reads as
    a number is Python's affair and not modelled: a text cell carries the
    answer, the value or the text of the [ValueError]. *)
Inductive cell :=
  | Number (f : float)
  | Text (s : string) (read : float + string).

(** One row of the sheet: [row] with any cell in the rate columns. *)
Record sheet_row := {
  sr_city : string;          (* str(row["시"]) *)
  sr_region : string;        (* str(row["지역"]) *)
  sr_housing_type : string;  (* str(row["주택유형"]) *)
  sr_subtype : string;       (* str(row["공급유형"]) *)
  sr_scale : string;         (* str(row["주택규모"]) *)
  sr_elementary : cell;      (* row["초등"] *)
  sr_middle : cell;          (* row["중등"] *)
  sr_hs_personnel : cell;    (* row.get("고등-세대당 인구수") *)
  sr_hs_rate : cell          (* row.get("고등-학생 점유율") *)
}.

Record Sheet := {
  sheet_columns : list string;
  sheet_rows : list sheet_row
}.

(** [float(x)] for a cell. *)
Definition float_of_cell (c : cell) : float + string :=
  match c with
  | Number f => inl f
  | Text _ read => read
  end.

(** [pd.notna(x) and x != ""] for a cell; text is never NaN and a number
    is never equal to [""]. *)
Definition filled (c : cell) : bool :=
  match c with
  | Number f => notna f
  | Text s _ => negb (str_falsy s)
  end.

Definition sheet_row_path (r : sheet_row) : path :=
  (sr_city r +:+ " " +:+ sr_region r, sr_housing_type r, sr_subtype r, sr_scale r).

(** The test of line 264. *)
Definition cells_filled (r : sheet_row) : bool :=
  filled (sr_hs_personnel r) && filled (sr_hs_rate r).

(** The body of the loop, lines 247-270: the conversions are made in the
    order of the source, and the first one that raises ends the loop with
    the text of its exception. *)
Definition import_sheet_row (acc : table * table) (r : sheet_row) : table * table + string :=
  match float_of_cell (sr_elementary r) with
  | inr why => inr why
  | inl e =>
      match float_of_cell (sr_middle r) with
      | inr why => inr why
      | inl m =>
          let new_rates :=
            store4 acc.1 (sheet_row_path r)
              {[ "초등" := Py.PFloat (Py.round2 e); "중등" := Py.PFloat (Py.round2 m) ]} in
          if cells_filled r then
            match float_of_cell (sr_hs_personnel r) with
            | inr why => inr why
            | inl p =>
                match float_of_cell (sr_hs_rate r) with
                | inr why => inr why
                | inl q =>
                    inl (new_rates,
                         store4 acc.2 (sheet_row_path r)
                           {[ "인원" := Py.PFloat (Py.round2 p);
                              "발생률" := Py.PFloat (Py.round2 q) ]})
                end
            end
          else inl (new_rates, acc.2)
      end
  end.

Fixpoint import_sheet_rows (acc : table * table) (l : list sheet_row)
  : table * table + string :=
  match l with
  | [] => inl acc
  | r :: l' =>
      match import_sheet_row acc r with
      | inr why => inr why
      | inl acc' => import_sheet_rows acc' l'
      end
  end.

(** The text of the [except] branch, line 279. *)
Definition msg_failed (e : string) : string := "❌ 엑셀 처리 실패: " +:+ e.

(** [process_excel(file, tab)] once the file has been read, lines 228-280,
    on a sheet whose rate cells may hold text: an exception of a conversion
    is caught at line 278, reported, and leaves the session as it was,
    since the tables are assigned after the loop. *)
Definition process_excel_raw (sh : Sheet) (st : session_state) : session_state * outcome :=
  if negb (issubset required_cols (sheet_columns sh)) then
    (st, Rejected (error msg_missing_cols))
  else
    match import_sheet_rows (∅, ∅) (sheet_rows sh) with
    | inr why => (st, Rejected (error (msg_failed why)))
    | inl new =>
        (with_tables st new.1 new.2,
         Succeeded [success (msg_imported (length (sheet_rows sh)))])
    end.

(** ** Table export *)

(** One dictionary of [rate_data], lines 472-506. *)
Record rate_row := {
  rr_city : string;           (* "시" *)
  rr_region : string;         (* "지역" *)
  rr_housing_type : string;   (* "주택유형" *)
  rr_subtype : string;        (* "공급유형" *)
  rr_scale : string;          (* "주택규모" *)
  rr_elementary : string;     (* "초등" *)
  rr_middle : string;         (* "중등" *)
  rr_hs_personnel : string;   (* "고등-세대당 인구수" *)
  rr_hs_rate : string         (* "고등-학생 점유율" *)
}.

(** [r.split(" ")[i] if " " in r else r] *)
Definition split_field (i : nat) (r : string) : string :=
  if has_space r then default "" (split_space r !! i) else r.

Definition high_school_field (hs : table) (p : path) (key : string) : Py.result string :=
  let d := get_node hs p ∅ in
  if dict_falsy d then Py.Ok "0.00"
  else format_percentage (default (Py.PFloat 0) (d !! key)).

Definition rate_row_of (hs : table) (leaf : path * entry) : Py.result rate_row :=
  let '((r, t, s, sc), v) := leaf in
  a ← format_percentage (default (Py.PFloat 0) (v !! "초등"));
  b ← format_percentage (default (Py.PFloat 0) (v !! "중등"));
  c ← high_school_field hs (r, t, s, sc) "인원";
  d ← high_school_field hs (r, t, s, sc) "발생률";
  Py.Ok {| rr_city := split_field 0 r; rr_region := split_field 1 r;
           rr_housing_type := t; rr_subtype := s; rr_scale := sc;
           rr_elementary := a; rr_middle := b;
           rr_hs_personnel := c; rr_hs_rate := d |}.

(** The four nested [for ... in ....items()] of lines 502-505.  The order
    of the rows is the iteration order of the dictionaries, which a [gmap]
    does not keep; only membership is meaningful. *)
Definition leaves (t : table) : list (path * entry) :=
  '(r, types) ← map_to_list t;
  '(h, subtypes) ← map_to_list types;
  '(s, scales) ← map_to_list subtypes;
  '(sc, v) ← map_to_list scales;
  [((r, h, s, sc), v)].

Fixpoint map_result {A B} (f : A -> Py.result B) (l : list A) : Py.result (list B) :=
  match l with
  | [] => Py.Ok []
  | x :: l' => y ← f x; ys ← map_result f l'; Py.Ok (y :: ys)
  end.

Definition rate_data (st : session_state) : Py.result (list rate_row) :=
  map_result (rate_row_of (high_school_rates st)) (leaves (rates st)).

(** ** Ledger *)

(** [enumerate(l)] *)
Definition enumerate {A} (l : list A) : list (Z * A) :=
  imap (fun i x => (Z.of_nat i, x)) l.

(** [[result for i, result in enumerate(results) if i not in original_indices]],
    lines 424-428. *)
Definition remove_at {A} (original_indices : list Z) (results : list A) : list A :=
  (filter (fun p => p.1 ∉ original_indices) (enumerate results)).*2.

(** The labels offered by the multiselect, line 420. *)
Definition options {A} (results : list A) : list string :=
  imap (fun i _ => format_int (Z.of_nat i + 1) +:+ " 번째 줄") results.

(** [option.split()[0]]: leading blanks skipped, then the text before the
    next blank.  The labels hold no blank other than the space. *)
Fixpoint skip_blanks (s : string) : string :=
  match s with
  | "" => ""
  | String c s' => if is_space c then skip_blanks s' else s
  end.

Fixpoint take_word (s : string) : string :=
  match s with
  | "" => ""
  | String c s' => if is_space c then "" else String c (take_word s')
  end.

Definition first_word (s : string) : string := take_word (skip_blanks s).

(** [s.replace(",", "")] *)
Fixpoint remove_commas (s : string) : string :=
  match s with
  | "" => ""
  | String c s' =>
      if bool_decide (c = ","%char) then remove_commas s' else String c (remove_commas s')
  end.

Definition digit_value (c : ascii) : option Z :=
  let n := Z.of_nat (nat_of_ascii c) in
  if (48 <=? n)%Z && (n <=? 57)%Z then Some (n - 48)%Z else None.

Fixpoint parse_digits (acc : Z) (s : string) : option Z :=
  match s with
  | "" => Some acc
  | String c s' => d ← digit_value c; parse_digits (acc * 10 + d)%Z s'
  end.

(** [int(s)] for a string of the decimal digits 0-9, which is what a label
    holds once its commas are removed.  On any other text the result is
    [ValueError]; that is what [int] does on text that is no number, but
    [int] also reads a sign, blanks around the number, underscores between
    digits and the digits of other scripts, which are left out here. *)
Definition int_of_digits (s : string) : Py.result Z :=
  match s with
  | "" => Py.Raise Py.ValueError
  | _ => match parse_digits 0 s with
         | Some z => Py.Ok z
         | None => Py.Raise Py.ValueError
         end
  end.

(** [int(option.split()[0].replace(",", "")) - 1], line 423. *)
Definition original_index (option : string) : Py.result Z :=
  match first_word option with
  | "" => Py.Raise Py.IndexError
  | w => n ← int_of_digits (remove_commas w); Py.Ok (n - 1)%Z
  end.

Definition msg_deleted : string := "✅ 선택한 계산 결과를 삭제했습니다.".

(** The handler of the delete button, lines 422-430. *)
Definition delete_selected (selected_indices : list string) (st : session_state)
  : session_state * outcome :=
  match map_result original_index selected_indices with
  | Py.Raise e => (st, Raised [] e)
  | Py.Ok original_indices =>
      (with_results st (remove_at original_indices (calculated_results st)),
       Succeeded [success msg_deleted])
  end.

(** * Statements

    The predicates, reference definitions and sample data that the
    properties below are stated with. *)

Import Py.

Local Open Scope list_scope.

(** ** Tables and import *)

(** A key combination can be looked up in a table. *)
Definition queryable (t : table) (q : path) : Prop := is_Some (lookup4 t q).

(** The rows of [l] stored under the key [q], in order, and those of them
    that have both high-school cells filled. *)
Definition rows_at (q : path) (l : list row) : list row :=
  filter (fun r => row_path r = q) l.

Definition high_school_rows_at (q : path) (l : list row) : list row :=
  filter (fun r => row_path r = q ∧ has_high_school r) l.

(** [needle in hay] *)
Fixpoint mentions (needle hay : string) : bool :=
  String.prefix needle hay ||
  match hay with
  | "" => false
  | String _ hay' => mentions needle hay'
  end.

(** The header with one required column left out. *)
Definition header_without (c : string) : list string :=
  filter (fun c' => c' ≠ c) required_cols.

Definition seven_columns : list string :=
  ["시"; "지역"; "주택유형"; "공급유형"; "주택규모"; "초등"; "중등"].

(** A DataFrame of numbers as a sheet. *)
Definition number_row (r : row) : sheet_row :=
  {| sr_city := row_city r; sr_region := row_region r;
     sr_housing_type := row_housing_type r; sr_subtype := row_subtype r;
     sr_scale := row_scale r;
     sr_elementary := Number (row_elementary r); sr_middle := Number (row_middle r);
     sr_hs_personnel := Number (row_hs_personnel r);
     sr_hs_rate := Number (row_hs_rate r) |}.

Definition sheet_of (df : DataFrame) : Sheet :=
  {| sheet_columns := columns df; sheet_rows := number_row <$> df_rows df |}.

(** [float] raises on the cell. *)
Definition unreadable (c : cell) : bool :=
  match float_of_cell c with inl _ => false | inr _ => true end.

(** Every conversion that the loop makes for the row goes through: the two
    rates, and the two high-school cells when both are filled. *)
Definition readable (r : sheet_row) : bool :=
  negb (unreadable (sr_elementary r)) && negb (unreadable (sr_middle r))
  && (negb (cells_filled r)
      || negb (unreadable (sr_hs_personnel r)) && negb (unreadable (sr_hs_rate r))).

(** The cells of a row that the loop may convert. *)
Definition rate_cells (r : sheet_row) : list cell :=
  [sr_elementary r; sr_middle r; sr_hs_personnel r; sr_hs_rate r].

(** ** Python arithmetic *)

(** [x] is NaN or an infinity. *)
Definition nonfinite (x : float) : Prop :=
  match Prim2SF x with
  | S754_nan | S754_infinity _ => True
  | _ => False
  end.

(** [x] is a zero of either sign. *)
Definition zeroish (x : float) : Prop :=
  match Prim2SF x with
  | S754_zero _ => True
  | _ => False
  end.

(** [n] is an integer nearest to the exact value of [x], and the even one
    of the two when [x] lies halfway between them. *)
Definition nearest_integer (x : float) (n : Z) : Prop :=
  match Prim2SF x with
  | S754_zero _ => n = 0
  | S754_finite s m (Zneg p) =>
      let v := cond_Zopp s (Zpos m) in
      let d := 2 ^ Zpos p in
      2 * Z.abs (n * d - v) <= d ∧ (2 * Z.abs (n * d - v) = d -> Z.even n = true)
  | S754_finite s m e => n = cond_Zopp s (Zpos m) * 2 ^ e
  | _ => False
  end.

(** ** Estimator *)

(** All five selectors are chosen. *)
Definition selected (city region housing_type subtype scale : string) : Prop :=
  Forall (fun s : string => s ≠ "") [city; region; housing_type; subtype; scale].

(** The four figures as the specification words them, on the stored
    [float]s: [elementary = round(units * elementary_rate / 100)],
    [kindergarten = round(elementary * 0.5)] from the rounded elementary
    figure, [middle = round(units * middle_rate / 100)] and
    [high = round(units * per_unit_headcount * occupancy_rate / 100)]. *)
Definition spec_estimate (units : Z)
    (elementary_rate middle_rate per_unit_headcount occupancy_rate : float)
  : result counts :=
  u ← float_of_int units;
  elementary ← round_float (u * elementary_rate / 100);
  el ← float_of_int elementary;
  kindergarten ← round_float (el * 0.5);
  middle ← round_float (u * middle_rate / 100);
  high ← round_float (u * per_unit_headcount * occupancy_rate / 100);
  Ok {| cnt_e := elementary; cnt_k := kindergarten; cnt_m := middle; cnt_h := high |}.

(** What [calculate_student_counts] does once its four checks have passed,
    lines 179-222. *)
Definition estimate_entries (city region housing_type subtype scale : string) (units : Z)
    (st : session_state) (data high_school_data : entry) : session_state * outcome :=
  let e_rate := default (PInt 0) (data !! "초등") in
  let m_rate := default (PInt 0) (data !! "중등") in
  let high_school_personnel := default (PInt 0) (high_school_data !! "인원") in
  let high_school_rate := default (PInt 0) (high_school_data !! "발생률") in
  match
    c ← student_counts units e_rate m_rate high_school_personnel high_school_rate;
    h_basis ← h_basis_text high_school_personnel high_school_rate;
    Ok (c, h_basis)
  with
  | Raise e => (st, Raised [] e)
  | Ok (c, h_basis) =>
      let shown :=
        success ("✅ 예상 학생 수:" +:+ nl +:+
                 result_table_text housing_type subtype scale units c) in
      match calculation_basis_text region e_rate m_rate h_basis with
      | Raise e => (st, Raised [shown] e)
      | Ok calculation_basis =>
          (with_results st
             (calculated_results st ++
              [mk_result city region housing_type subtype scale units c]),
           Succeeded [shown; markdown calculation_basis])
      end
  end.

(** One figure of lines 184 and 186, the kindergarten figure of line 185
    and the high-school figure of line 187. *)
Definition figure (units : Z) (rate : num) : result Z :=
  x ← mul (PInt units) rate; y ← truediv x (PInt 100); round y.

Definition half_figure (e : Z) : result Z :=
  x ← mul (PInt e) (PFloat 0.5); round x.

Definition high_figure (units : Z) (personnel rate : num) : result Z :=
  x ← mul (PInt units) personnel; x ← mul x rate; y ← truediv x (PInt 100); round y.

(** Every text of the narrative can be formatted. *)
Definition displays (er mr p r : num) : Prop :=
  (exists a, format_percentage er = Ok a) ∧ (exists a, format_percentage mr = Ok a)
  ∧ (exists a, format_number p = Ok a) ∧ (exists a, format_percentage r = Ok a).

(** The estimate on the four values completes with the counts [c]. *)
Definition completes (units : Z) (er mr p r : num) (c : counts) : Prop :=
  student_counts units er mr p r = Ok c ∧ displays er mr p r.

(** The four values the estimator reads from the two entries. *)
Definition entry_values (data hd : entry) : num * num * num * num :=
  (default (PInt 0) (data !! "초등"), default (PInt 0) (data !! "중등"),
   default (PInt 0) (hd !! "인원"), default (PInt 0) (hd !! "발생률")).

(** The session with the value [v] stored under [key] in the rate entry,
    or in the high-school entry, at the path [q]. *)
Definition fill_rate (st : session_state) (q : path) (key : string) (v : num)
  : session_state :=
  with_tables st
    (store4 (rates st) q (<[key := v]> (get_node (rates st) q ∅)))
    (high_school_rates st).

Definition fill_high_school (st : session_state) (q : path) (key : string) (v : num)
  : session_state :=
  with_tables st
    (rates st)
    (store4 (high_school_rates st) q (<[key := v]> (get_node (high_school_rates st) q ∅))).

(** The call on [st] succeeds and records one row, which satisfies [P]. *)
Definition records (city region housing_type subtype scale : string) (units : Z)
    (st : session_state) (P : result_row -> Prop) : Prop :=
  exists shown row,
    calculate_student_counts city region housing_type subtype scale units st
    = (with_results st (calculated_results st ++ [row]), Succeeded shown)
    ∧ P row.

(** ** Export *)

(** The rule the specification gives for the exported fields: the city is
    the text of the key before its first space, the district all the text
    after it. *)
Fixpoint split_on_first_space (s : string) : string * string :=
  match s with
  | "" => ("", "")
  | String c s' =>
      if is_space c then ("", s')
      else let '(a, b) := split_on_first_space s' in (String c a, b)
  end.

(** The row that the export shows for the row [r] of the import when [r]
    is the last one with its key. *)
Definition exported (rows : list row) (r : row) : rate_row :=
  {| rr_city := row_city r; rr_region := row_region r;
     rr_housing_type := row_housing_type r; rr_subtype := row_subtype r;
     rr_scale := row_scale r;
     rr_elementary := fixed2 (round2 (row_elementary r));
     rr_middle := fixed2 (round2 (row_middle r));
     rr_hs_personnel :=
       match last (high_school_rows_at (row_path r) rows) with
       | Some r' => fixed2 (round2 (row_hs_personnel r'))
       | None => "0.00"
       end;
     rr_hs_rate :=
       match last (high_school_rows_at (row_path r) rows) with
       | Some r' => fixed2 (round2 (row_hs_rate r'))
       | None => "0.00"
       end |}.

(** ** Signs, labels and runs *)

(** The sign bit of [x] is clear, or [x] is a zero or NaN: [x] is not
    below zero. *)
Definition sf_not_negative (x : spec_float) : Prop :=
  match x with
  | S754_finite true _ _ | S754_infinity true => False
  | _ => True
  end.

Definition not_negative (x : float) : Prop := sf_not_negative (Prim2SF x).

(** The label of the row at position [i], line 420. *)
Definition option_label (i : nat) : string := format_int (Z.of_nat i + 1) +:+ " 번째 줄".

Definition is_digit (c : ascii) : Prop := is_Some (digit_value c).

Definition no_comma (c : ascii) : Prop := c <> ","%char.

Definition raised (out : option outcome) : bool :=
  match out with Some (Raised _ _) => true | _ => false end.

(** ** Sample data *)

Definition empty_session : session_state :=
  {| rates := ∅; high_school_rates := ∅; calculated_results := [] |}.

Definition gangnam : row :=
  {| row_city := "서울"; row_region := "강남구"; row_housing_type := "아파트";
     row_subtype := "분양"; row_scale := "84㎡";
     row_elementary := 12.5; row_middle := 6;
     row_hs_personnel := 0.8; row_hs_rate := 15 |}.

(** The same key with other rates and blank high-school cells. *)
Definition gangnam_again : row :=
  {| row_city := "서울"; row_region := "강남구"; row_housing_type := "아파트";
     row_subtype := "분양"; row_scale := "84㎡";
     row_elementary := 10.004; row_middle := 4.995;
     row_hs_personnel := nan; row_hs_rate := nan |}.

Definition busan : row :=
  {| row_city := "부산"; row_region := "해운대구"; row_housing_type := "오피스텔";
     row_subtype := "임대"; row_scale := "59㎡";
     row_elementary := 3.25; row_middle := 1.5;
     row_hs_personnel := nan; row_hs_rate := 20 |}.

(** A district whose name has a space in it. *)
Definition suwon : row :=
  {| row_city := "경기도"; row_region := "수원시 영통구"; row_housing_type := "아파트";
     row_subtype := "분양"; row_scale := "84㎡";
     row_elementary := 12.5; row_middle := 6;
     row_hs_personnel := 0.8; row_hs_rate := 15 |}.

Definition table_A : DataFrame := {| columns := required_cols; df_rows := [gangnam] |}.
Definition table_B : DataFrame := {| columns := required_cols; df_rows := [busan] |}.

Definition table_dup : DataFrame :=
  {| columns := required_cols; df_rows := [gangnam_again; busan; gangnam] |}.

(** The same two rows the other way round: the last row with the key has
    blank high-school cells. *)
Definition table_dup_blank_last : DataFrame :=
  {| columns := required_cols; df_rows := [gangnam; gangnam_again] |}.

(** The session after importing the one row of the example of the
    specification: 서울 강남구, 아파트, 분양, 84㎡ with the rates 12.50 and
    6.00, 0.80 persons per unit and an occupancy of 15.00. *)
Definition example_session : session_state := (process_excel table_A empty_session).1.

Definition example_counts : counts := {| cnt_e := 12; cnt_k := 6; cnt_m := 6; cnt_h := 12 |}.

(** A session whose rate entry lacks "초등" and whose high-school entry lacks
    "인원". *)
Definition partial_session : session_state :=
  {| rates := store4 ∅ ("서울 강남구", "아파트", "분양", "84㎡") {[ "중등" := PFloat 6 ]};
     high_school_rates :=
       store4 ∅ ("서울 강남구", "아파트", "분양", "84㎡") {[ "발생률" := PFloat 15 ]};
     calculated_results := [] |}.

Definition suwon_session : session_state :=
  (process_excel {| columns := required_cols; df_rows := [suwon] |} empty_session).1.

Definition gwangju : row :=
  {| row_city := "광주"; row_region := "북구"; row_housing_type := "아파트";
     row_subtype := "분양"; row_scale := "84㎡";
     row_elementary := 11; row_middle := 5;
     row_hs_personnel := 0.8; row_hs_rate := 15 |}.

Definition gwangju_si : row :=
  {| row_city := "광주시"; row_region := "오포읍"; row_housing_type := "아파트";
     row_subtype := "임대"; row_scale := "59㎡";
     row_elementary := 9; row_middle := 4;
     row_hs_personnel := 0.7; row_hs_rate := 12 |}.

Definition table_prefix : DataFrame :=
  {| columns := required_cols; df_rows := [gwangju; gwangju_si] |}.

Definition prefix_session : session_state := (process_excel table_prefix empty_session).1.

Definition example_calc_state : calc_state :=
  {| cs_session := example_session; cs_c_units := 100;
     cs_units_inputted := 0; cs_last_calculated_units := None |}.

Definition comma_text : cell :=
  Text "12,5" (inr "could not convert string to float: '12,5'").

Definition busan_text : sheet_row :=
  {| sr_city := "부산"; sr_region := "해운대구"; sr_housing_type := "아파트";
     sr_subtype := "분양"; sr_scale := "84㎡";
     sr_elementary := comma_text; sr_middle := Number 6;
     sr_hs_personnel := Number 0.8; sr_hs_rate := Number 15 |}.

Definition sheet_text : Sheet :=
  {| sheet_columns := required_cols; sheet_rows := [number_row gangnam; busan_text] |}.

(** * Properties *)

(** Closed decidable goals, such as membership in a literal list. *)
Ltac solve_elem := apply (bool_decide_unpack _); vm_compute; exact I.

(** ** Tables *)

Lemma lookup4_empty (q : path) : lookup4 ∅ q = None.
Proof. by destruct q as [[[a b] c] d]. Qed.

Lemma lookup4_store4 (t : table) (p q : path) (v : entry) :
  lookup4 (store4 t p v) q = if decide (p = q) then Some v else lookup4 t q.
Proof.
  destruct p as [[[a b] c] d], q as [[[a' b'] c'] d']. simpl.
  destruct (decide (a = a')) as [<-|Ha].
  2: { rewrite lookup_insert_ne by done. case_decide; [congruence|done]. }
  rewrite lookup_insert_eq. simpl.
  destruct (decide (b = b')) as [<-|Hb].
  2: { rewrite lookup_insert_ne by done. case_decide; [congruence|].
       by destruct (t !! a). }
  rewrite lookup_insert_eq. simpl.
  destruct (decide (c = c')) as [<-|Hc].
  2: { rewrite lookup_insert_ne by done. case_decide; [congruence|].
       destruct (t !! a) as [x|]; simpl; [|done]. by destruct (x !! b). }
  rewrite lookup_insert_eq. simpl.
  destruct (decide (d = d')) as [<-|Hd].
  - rewrite lookup_insert_eq. by rewrite decide_True.
  - rewrite lookup_insert_ne by done. case_decide; [congruence|].
    destruct (t !! a) as [x|]; simpl; [|done].
    destruct (x !! b) as [y|]; simpl; [|done]. by destruct (y !! c).
Qed.

(** ** Import *)

Lemma import_rows_snoc (l : list row) (r : row) :
  import_rows (l ++ [r]) = import_row (import_rows l) r.
Proof. unfold import_rows. by rewrite foldl_snoc. Qed.

Lemma lookup4_import_rates (l : list row) (q : path) :
  lookup4 (import_rows l).1 q = rate_entry <$> last (rows_at q l).
Proof.
  induction l as [|r l IH] using rev_ind.
  - apply lookup4_empty.
  - rewrite import_rows_snoc. unfold import_row, rows_at. cbn [fst snd].
    rewrite lookup4_store4, filter_app, filter_cons, filter_nil.
    destruct (decide (row_path r = q)) as [Hq|Hq].
    + by rewrite last_snoc.
    + by rewrite app_nil_r.
Qed.

Lemma lookup4_import_high_school (l : list row) (q : path) :
  lookup4 (import_rows l).2 q = high_school_entry <$> last (high_school_rows_at q l).
Proof.
  induction l as [|r l IH] using rev_ind.
  - apply lookup4_empty.
  - rewrite import_rows_snoc. unfold import_row, high_school_rows_at. cbn [fst snd].
    rewrite filter_app, filter_cons, filter_nil.
    destruct (has_high_school r) eqn:Hh.
    + rewrite lookup4_store4.
      destruct (decide (row_path r = q)) as [Hq|Hq].
      * rewrite decide_True by done. by rewrite last_snoc.
      * rewrite decide_False by tauto. by rewrite app_nil_r.
    + rewrite decide_False by (intros [_ []]). by rewrite app_nil_r.
Qed.

Lemma last_filter_is_Some {A} (P : A -> Prop) `{!forall x, Decision (P x)} (l : list A) :
  is_Some (last (filter P l)) <-> exists x, x ∈ l ∧ P x.
Proof.
  rewrite last_is_Some. split.
  - intros Hne. destruct (filter P l) as [|x l'] eqn:E; [done|].
    assert (x ∈ filter P l) as Hin by (rewrite E; left).
    apply list_elem_of_filter in Hin. exists x. tauto.
  - intros (x & Hx & HP) E.
    assert (x ∈ filter P l) as Hin by by apply list_elem_of_filter.
    rewrite E in Hin. by apply not_elem_of_nil in Hin.
Qed.

Lemma last_filter_split {A} (P : A -> Prop) `{!forall x, Decision (P x)} (l1 l2 : list A) (x : A) :
  P x -> (forall y, y ∈ l2 -> ¬ P y) -> last (filter P (l1 ++ x :: l2)) = Some x.
Proof.
  intros HP Hl2. rewrite filter_app, filter_cons, decide_True by done.
  replace (filter P l2) with (@nil A); [by rewrite last_snoc|].
  symmetry. clear HP. induction l2 as [|y l2 IH]; [done|].
  rewrite filter_cons_False by (apply Hl2; left).
  apply IH. intros z Hz. apply Hl2. by right.
Qed.

(** ** Ledger *)

Section remove_at.
Context {A : Type}.
Implicit Types (l : list A) (idx : list Z).

Lemma omap_fmap_compose {B C} (g : B -> option A) (h : C -> B) (s : list C) :
  omap g (h <$> s) = omap (g ∘ h) s.
Proof. induction s as [|i s IH]; [done|]. cbn. by rewrite IH. Qed.

(** The positions read through an arbitrary renumbering [f], so that the
    induction can step over the head of the list. *)
Lemma remove_at_renumbered idx l (f : nat -> nat) :
  (filter (fun p => p.1 ∉ idx) (imap (fun i x => (Z.of_nat (f i), x)) l)).*2
  = omap (fun i => if decide (Z.of_nat (f i) ∈ idx) then None else l !! i)
         (seq 0 (length l)).
Proof.
  revert f. induction l as [|x l IH]; intros f; [reflexivity|].
  rewrite imap_cons, filter_cons. cbn [length seq fst].
  rewrite <- fmap_S_seq. specialize (IH (f ∘ S)).
  change (omap ?g (0%nat :: ?s)) with
    (match g 0%nat with Some y => y :: omap g s | None => omap g s end).
  rewrite omap_fmap_compose.
  destruct (decide (Z.of_nat (f 0%nat) ∈ idx)) as [Hin|Hin].
  - rewrite decide_False by tauto. exact IH.
  - rewrite decide_True by done. cbn. f_equal. exact IH.
Qed.

Lemma remove_at_lookup idx l :
  remove_at idx l
  = omap (fun i => if decide (Z.of_nat i ∈ idx) then None else l !! i)
         (seq 0 (length l)).
Proof. apply (remove_at_renumbered idx l id). Qed.

Lemma enumerate_snd l (f : nat -> Z) : (imap (fun i x => (f i, x)) l).*2 = l.
Proof.
  revert f. induction l as [|x l IH]; intros f; [done|].
  rewrite imap_cons. cbn. f_equal. apply (IH (f ∘ S)).
Qed.

Lemma remove_at_sublist idx l : sublist (remove_at idx l) l.
Proof.
  unfold remove_at, enumerate.
  rewrite <- (enumerate_snd l Z.of_nat) at 2.
  apply fmap_sublist, sublist_filter.
Qed.
End remove_at.

(** C8: [remove_at] keeps, in their order, exactly the entries whose
    position at the time of the call is not among the indices; a second
    removal therefore counts positions in the list the first one left:
    after removing positions 1 and 3 of five entries, removing position 0
    drops the entry that is first now (the original first one) and
    removing position 1 drops the original third one. *)
Theorem remove_at_current_positions {A : Type} (idx : list Z) (l : list A) :
  remove_at idx l
    = omap (fun i => if decide (Z.of_nat i ∈ idx) then None else l !! i)
           (seq 0 (length l))
  ∧ sublist (remove_at idx l) l
  ∧ (forall a b c d e : A,
       remove_at [1; 3]%Z [a; b; c; d; e] = [a; c; e]
       ∧ remove_at [0]%Z (remove_at [1; 3]%Z [a; b; c; d; e]) = [c; e]
       ∧ remove_at [1]%Z (remove_at [1; 3]%Z [a; b; c; d; e]) = [a; e]).
Proof.
  split; [apply remove_at_lookup|]. split; [apply remove_at_sublist|].
  intros a b c d e. rewrite !remove_at_lookup. by cbn.
Qed.

(** The handler of the delete button on five rows with the second and the
    fourth label selected, then with the first label of the three that are
    left. *)
Example delete_selected_twice (a b c d e : result_row) (t h : table) :
  options [a; b; c; d; e] = ["1 번째 줄"; "2 번째 줄"; "3 번째 줄"; "4 번째 줄"; "5 번째 줄"]
  ∧ map_result original_index ["2 번째 줄"; "4 번째 줄"] = Py.Ok [1; 3]%Z
  ∧ calculated_results
      (delete_selected ["1 번째 줄"]
         (delete_selected ["2 번째 줄"; "4 번째 줄"]
            {| rates := t; high_school_rates := h;
               calculated_results := [a; b; c; d; e] |}).1).1
    = [c; e].
Proof. repeat split; reflexivity. Qed.

(** ** Import: what is stored *)

Lemma process_excel_accepted (st : session_state) (df : DataFrame) :
  issubset required_cols (columns df) = true ->
  process_excel df st
  = (with_tables st (import_rows (df_rows df)).1 (import_rows (df_rows df)).2,
     Succeeded [success (msg_imported (length (df_rows df)))]).
Proof. intros H. unfold process_excel. by rewrite H. Qed.

Lemma process_excel_refused (st : session_state) (df : DataFrame) :
  issubset required_cols (columns df) = false ->
  process_excel df st = (st, Rejected (error msg_missing_cols)).
Proof. intros H. unfold process_excel. by rewrite H. Qed.

Lemma issubset_false (cols header : list string) (c : string) :
  c ∈ cols -> c ∉ header -> issubset cols header = false.
Proof.
  intros Hc Hh. unfold issubset. apply not_true_is_false. intros Hall.
  rewrite forallb_forall in Hall. apply list_elem_of_In, Hall in Hc.
  by apply bool_decide_eq_true in Hc.
Qed.

(** C5: a successful import of the rows B replaces both tables by the ones
    built from B alone, whatever the session held before: a combination can
    be looked up in the rate table exactly when a row of B has it, in the
    high-school table exactly when a row of B has it with both high-school
    cells filled, and a combination that only the previous table had can no
    longer be looked up. *)
Theorem import_replaces_tables (st : session_state) (df : DataFrame) :
  issubset required_cols (columns df) = true ->
  let st' := (process_excel df st).1 in
  rates st' = (import_rows (df_rows df)).1
  ∧ high_school_rates st' = (import_rows (df_rows df)).2
  ∧ forall q : path,
      (queryable (rates st') q <-> exists r, r ∈ df_rows df ∧ row_path r = q)
      ∧ (queryable (high_school_rates st') q
         <-> exists r, r ∈ df_rows df ∧ (row_path r = q ∧ has_high_school r))
      ∧ ((forall r, r ∈ df_rows df -> row_path r ≠ q) ->
         ¬ queryable (rates st') q ∧ ¬ queryable (high_school_rates st') q).
Proof.
  intros H st'. subst st'. rewrite process_excel_accepted by done. cbn [fst].
  split; [done|]. split; [done|]. intros q. cbn [rates high_school_rates with_tables].
  unfold queryable.
  rewrite lookup4_import_rates, lookup4_import_high_school, !fmap_is_Some.
  unfold rows_at, high_school_rows_at. rewrite !last_filter_is_Some.
  split; [done|]. split; [done|]. intros Hq. split.
  - intros (r & Hr & Hp). by apply (Hq r).
  - intros (r & Hr & Hp & _). by apply (Hq r).
Qed.

(** C9 (as the code has it): when several rows carry the same key, the
    rate table holds the rounded rates of the last of them; the high-school
    table holds the rounded high-school figures of the last of them that has
    both high-school cells filled, so a later row with a blank cell neither
    replaces nor removes them; and the reported count is the number of rows,
    repeated keys included. *)
Theorem import_last_row_wins (st : session_state) (df : DataFrame) (q : path) :
  issubset required_cols (columns df) = true ->
  let res := process_excel df st in
  lookup4 (rates res.1) q = rate_entry <$> last (rows_at q (df_rows df))
  ∧ lookup4 (high_school_rates res.1) q
    = high_school_entry <$> last (high_school_rows_at q (df_rows df))
  ∧ res.2 = Succeeded [success (msg_imported (length (df_rows df)))].
Proof.
  intros H res. subst res. rewrite process_excel_accepted by done.
  cbn [fst snd rates high_school_rates with_tables].
  by rewrite lookup4_import_rates, lookup4_import_high_school.
Qed.

(** The last row with a key, given by its place in the list. *)
Lemma last_rows_at (before after : list row) (r : row) :
  (forall r', r' ∈ after -> row_path r' ≠ row_path r) ->
  last (rows_at (row_path r) (before ++ r :: after)) = Some r.
Proof. intros Hafter. unfold rows_at. by rewrite last_filter_split. Qed.

Lemma import_replaces_tables_witness :
  issubset required_cols (columns table_B) = true
  ∧ queryable (rates (process_excel table_A empty_session).1) (row_path gangnam)
  ∧ ¬ queryable
        (rates (process_excel table_B (process_excel table_A empty_session).1).1)
        (row_path gangnam)
  ∧ queryable
      (rates (process_excel table_B (process_excel table_A empty_session).1).1)
      (row_path busan).
Proof.
  split; [reflexivity|]. split; [by exists (rate_entry gangnam)|].
  destruct (import_replaces_tables (process_excel table_A empty_session).1 table_B eq_refl)
    as (_ & _ & Hq).
  split.
  - apply (Hq (row_path gangnam)). intros r Hr.
    apply list_elem_of_singleton in Hr as ->. by vm_compute.
  - apply (Hq (row_path busan)). exists busan. split; [left|done].
Defined.

Lemma import_last_row_wins_witness :
  issubset required_cols (columns table_dup) = true
  ∧ row_path gangnam_again = row_path gangnam
  ∧ lookup4 (rates (process_excel table_dup empty_session).1) (row_path gangnam)
    = Some (rate_entry gangnam)
  ∧ lookup4 (high_school_rates (process_excel table_dup empty_session).1) (row_path gangnam)
    = Some (high_school_entry gangnam)
  ∧ (process_excel table_dup empty_session).2 = Succeeded [success (msg_imported 3)].
Proof.
  split; [reflexivity|]. split; [reflexivity|].
  destruct (import_last_row_wins empty_session table_dup (row_path gangnam) eq_refl)
    as (H1 & H2 & H3).
  split; [exact H1|]. split; [exact H2|exact H3].
Defined.

(** C9 as stated fails for the high-school table: with the blank row last,
    the rate table holds the rates of that last row, and the high-school
    table still holds the figures of the earlier row. *)
Lemma import_blank_last_row_keeps_earlier_high_school :
  last (rows_at (row_path gangnam) (df_rows table_dup_blank_last)) = Some gangnam_again
  ∧ has_high_school gangnam_again = false
  ∧ lookup4 (rates (process_excel table_dup_blank_last empty_session).1) (row_path gangnam)
    = Some (rate_entry gangnam_again)
  ∧ lookup4 (high_school_rates (process_excel table_dup_blank_last empty_session).1)
            (row_path gangnam)
    = Some (high_school_entry gangnam)
  ∧ high_school_entry gangnam = {[ "인원" := Py.PFloat 0.8; "발생률" := Py.PFloat 15 ]}.
Proof. repeat split; reflexivity. Qed.

(** *** Sheets with text in the rate cells *)

Lemma import_sheet_row_number (acc : table * table) (r : row) :
  import_sheet_row acc (number_row r) = inl (import_row acc r).
Proof.
  unfold import_sheet_row, import_row, cells_filled, has_high_school. cbn.
  by destruct (notna (row_hs_personnel r) && notna (row_hs_rate r)).
Qed.

Lemma import_sheet_rows_number (acc : table * table) (l : list row) :
  import_sheet_rows acc (number_row <$> l) = inl (foldl import_row acc l).
Proof.
  revert acc. induction l as [|r l IH]; intros acc; [done|].
  cbn [fmap list_fmap import_sheet_rows foldl].
  change (import_sheet_rows acc (number_row r :: (number_row <$> l))
          = inl (foldl import_row (import_row acc r) l)).
  cbn [import_sheet_rows]. by rewrite import_sheet_row_number, IH.
Qed.

(** On a sheet of numbers and blanks the import is [process_excel] on the
    DataFrame. *)
Lemma process_excel_raw_numbers (df : DataFrame) (st : session_state) :
  process_excel_raw (sheet_of df) st = process_excel df st.
Proof.
  unfold process_excel_raw, process_excel, sheet_of. cbn [sheet_columns sheet_rows].
  destruct (negb (issubset required_cols (columns df))); [done|].
  rewrite import_sheet_rows_number. by rewrite length_fmap.
Qed.

Lemma import_sheet_row_readable (acc : table * table) (r : sheet_row) :
  readable r = true ->
  exists v new_hs,
    import_sheet_row acc r = inl (store4 acc.1 (sheet_row_path r) v, new_hs)
    ∧ ((cells_filled r = false ∧ new_hs = acc.2)
       ∨ (cells_filled r = true ∧ exists w, new_hs = store4 acc.2 (sheet_row_path r) w)).
Proof.
  unfold readable, unreadable, import_sheet_row. intros H.
  destruct (float_of_cell (sr_elementary r)) as [e|]; [|done].
  destruct (float_of_cell (sr_middle r)) as [m|]; [|done].
  destruct (cells_filled r).
  - destruct (float_of_cell (sr_hs_personnel r)) as [p|]; [|done].
    destruct (float_of_cell (sr_hs_rate r)) as [q|]; [|done].
    eexists _, _. split; [done|]. right. split; [done|]. by eexists.
  - eexists _, _. split; [done|]. by left.
Qed.

Lemma import_sheet_row_unreadable (acc : table * table) (r : sheet_row) :
  readable r = false ->
  exists c why,
    c ∈ rate_cells r ∧ float_of_cell c = inr why ∧ import_sheet_row acc r = inr why.
Proof.
  unfold readable, unreadable, import_sheet_row, rate_cells. intros H.
  destruct (float_of_cell (sr_elementary r)) as [e|why] eqn:Ee.
  2: { exists (sr_elementary r), why. split; [left|done]. }
  destruct (float_of_cell (sr_middle r)) as [m|why] eqn:Em.
  2: { exists (sr_middle r), why. split; [right; left|done]. }
  destruct (cells_filled r); [|done].
  destruct (float_of_cell (sr_hs_personnel r)) as [p|why] eqn:Ep.
  2: { exists (sr_hs_personnel r), why. split; [do 2 right; left|done]. }
  destruct (float_of_cell (sr_hs_rate r)) as [q|why] eqn:Eq; [done|].
  exists (sr_hs_rate r), why. split; [do 3 right; left|done].
Qed.

Lemma import_sheet_rows_readable (acc : table * table) (l : list sheet_row) :
  Forall (fun r => readable r = true) l ->
  exists new,
    import_sheet_rows acc l = inl new
    ∧ (forall q, is_Some (lookup4 new.1 q)
                 <-> is_Some (lookup4 acc.1 q) ∨ exists r, r ∈ l ∧ sheet_row_path r = q)
    ∧ (forall q, is_Some (lookup4 new.2 q)
                 <-> is_Some (lookup4 acc.2 q)
                     ∨ exists r, r ∈ l ∧ sheet_row_path r = q ∧ cells_filled r = true).
Proof.
  intros H. revert acc. induction H as [|r l Hr _ IH]; intros acc.
  - exists acc. split; [done|].
    split; intros q; (split; [by left|]); intros [?|(r & Hr & _)]; try done;
      by apply not_elem_of_nil in Hr.
  - destruct (import_sheet_row_readable acc r Hr) as (v & hs & E & Hhs).
    destruct (IH (store4 acc.1 (sheet_row_path r) v, hs)) as (new & En & H1 & H2).
    exists new. cbn [import_sheet_rows]. rewrite E. split; [exact En|].
    cbn [fst snd] in H1, H2. split; intros q.
    + rewrite H1, lookup4_store4. setoid_rewrite elem_of_cons.
      destruct (decide (sheet_row_path r = q)) as [Hq|Hq].
      * split; [|by intros _; left; eexists]. intros _. right. exists r. by split; [left|].
      * split.
        -- intros [?|(r' & ? & ?)]; [by left|right; exists r'; by split; [right|]].
        -- intros [?|(r' & [->|?] & ?)]; [by left|done|right; by exists r'].
    + rewrite H2. setoid_rewrite elem_of_cons.
      destruct Hhs as [[Hf ->]|[Hf [w ->]]].
      * split.
        -- intros [?|(r' & ? & ? & ?)]; [by left|right; exists r'; by split; [right|]].
        -- intros [?|(r' & [->|?] & ? & Hf')]; [by left|congruence|right; by exists r'].
      * rewrite lookup4_store4.
        destruct (decide (sheet_row_path r = q)) as [Hq|Hq].
        -- split; [|by intros _; left; eexists]. intros _. right. exists r. by split; [left|].
        -- split.
           ++ intros [?|(r' & ? & ? & ?)]; [by left|right; exists r'; by split; [right|]].
           ++ intros [?|(r' & [->|?] & ? & ?)]; [by left|done|right; by exists r'].
Qed.

Lemma import_sheet_rows_unreadable (acc : table * table) (l : list sheet_row) :
  Exists (fun r => readable r = false) l ->
  exists r c why,
    r ∈ l ∧ c ∈ rate_cells r ∧ float_of_cell c = inr why
    ∧ import_sheet_rows acc l = inr why.
Proof.
  revert acc. induction l as [|r l IH]; intros acc H; [by apply Exists_nil in H|].
  cbn [import_sheet_rows]. destruct (readable r) eqn:Hr.
  - destruct (import_sheet_row_readable acc r Hr) as (v & hs & -> & _).
    apply Exists_cons in H as [H|H]; [congruence|].
    destruct (IH (store4 acc.1 (sheet_row_path r) v, hs) H) as (r' & c & why & ? & ? & ? & ?).
    exists r', c, why. by split; [right|].
  - destruct (import_sheet_row_unreadable acc r Hr) as (c & why & ? & ? & ->).
    exists r, c, why. by split; [left|].
Qed.

(** C6 (as the code has it): the two high-school columns are required like
    the other seven, so a header without one of them is refused with the
    structural error and nothing is stored.  With all nine columns the
    import succeeds when every conversion it makes goes through: every row
    reaches the rate table, and a key whose rows all have a high-school
    cell that is not filled gets no high-school entry.  With all nine
    columns and a cell whose conversion raises, the failure is reported with
    the text of that exception and nothing is stored. *)
Theorem import_high_school_columns (st : session_state) (sh : Sheet) :
  ("고등-세대당 인구수" ∉ sheet_columns sh ∨ "고등-학생 점유율" ∉ sheet_columns sh ->
   process_excel_raw sh st = (st, Rejected (error msg_missing_cols)))
  ∧ (issubset required_cols (sheet_columns sh) = true ->
     (Forall (fun r => readable r = true) (sheet_rows sh) ->
      let res := process_excel_raw sh st in
      res.2 = Succeeded [success (msg_imported (length (sheet_rows sh)))]
      ∧ (forall r, r ∈ sheet_rows sh -> queryable (rates res.1) (sheet_row_path r))
      ∧ (forall q,
           (forall r, r ∈ sheet_rows sh -> sheet_row_path r = q -> cells_filled r = false) ->
           lookup4 (high_school_rates res.1) q = None))
     ∧ (Exists (fun r => readable r = false) (sheet_rows sh) ->
        exists r c why,
          r ∈ sheet_rows sh ∧ c ∈ rate_cells r ∧ float_of_cell c = inr why
          ∧ process_excel_raw sh st = (st, Rejected (error (msg_failed why))))).
Proof.
  split.
  - intros H. unfold process_excel_raw.
    assert (issubset required_cols (sheet_columns sh) = false) as ->; [|done].
    destruct H as [H|H]; eapply issubset_false; try exact H; solve_elem.
  - intros H. unfold process_excel_raw. rewrite H. cbn [negb]. split.
    + intros Hr.
      destruct (import_sheet_rows_readable (∅, ∅) (sheet_rows sh) Hr) as (new & -> & H1 & H2).
      cbn [fst snd rates high_school_rates with_tables]. split; [done|]. split.
      * intros r Hin. apply H1. right. by exists r.
      * intros q Hq. apply eq_None_not_Some. intros Hs.
        apply H2 in Hs as [Hs|(r & Hin & Hp & Hf)].
        -- cbn [snd] in Hs. rewrite lookup4_empty in Hs. by destruct Hs.
        -- rewrite (Hq r Hin Hp) in Hf. done.
    + intros He.
      destruct (import_sheet_rows_unreadable (∅, ∅) (sheet_rows sh) He)
        as (r & c & why & Hin & Hc & Hw & ->).
      by exists r, c, why.
Qed.

Lemma import_high_school_columns_witness :
  (process_excel_raw {| sheet_columns := seven_columns; sheet_rows := [number_row busan] |}
     (process_excel table_A empty_session).1
   = ((process_excel table_A empty_session).1, Rejected (error msg_missing_cols)))
  ∧ queryable (rates (process_excel_raw (sheet_of table_B) empty_session).1)
              (sheet_row_path (number_row busan))
  ∧ lookup4 (high_school_rates (process_excel_raw (sheet_of table_B) empty_session).1)
            (sheet_row_path (number_row busan)) = None
  ∧ (exists r c why,
       r ∈ sheet_rows sheet_text ∧ c ∈ rate_cells r ∧ float_of_cell c = inr why
       ∧ process_excel_raw sheet_text (process_excel table_A empty_session).1
         = ((process_excel table_A empty_session).1, Rejected (error (msg_failed why))))
  ∧ process_excel_raw sheet_text (process_excel table_A empty_session).1
    = ((process_excel table_A empty_session).1,
       Rejected (error "❌ 엑셀 처리 실패: could not convert string to float: '12,5'")).
Proof.
  split.
  - apply (import_high_school_columns _
             {| sheet_columns := seven_columns; sheet_rows := [number_row busan] |}).
    left. solve_elem.
  - destruct (import_high_school_columns empty_session (sheet_of table_B)) as [_ H].
    destruct (H eq_refl) as [Hok _].
    destruct (Hok ltac:(by repeat constructor)) as (_ & H1 & H2).
    split; [apply H1; left|]. split.
    + apply H2. intros r Hr _. by apply list_elem_of_singleton in Hr as ->.
    + split; [|reflexivity].
      destruct (import_high_school_columns (process_excel table_A empty_session).1
                  sheet_text) as [_ H'].
      destruct (H' eq_refl) as [_ Hbad]. apply Hbad. right. by left.
Defined.

(** C6 as stated fails: a header with the seven columns and without the two
    high-school columns is refused with the structural error, and the import
    stores nothing. *)
Lemma import_seven_columns_refused :
  process_excel {| columns := seven_columns; df_rows := [gangnam] |} empty_session
  = (empty_session, Rejected (error msg_missing_cols))
  ∧ issubset seven_columns (columns {| columns := seven_columns; df_rows := [gangnam] |}) = true
  ∧ ¬ queryable
        (rates (process_excel {| columns := seven_columns; df_rows := [gangnam] |}
                              empty_session).1)
        (row_path gangnam).
Proof.
  split; [reflexivity|]. split; [reflexivity|].
  intros [x Hx]. by vm_compute in Hx.
Qed.

(** C7 (as the code has it): a header that lacks a required column is
    refused, the session is returned as it was, and the message is the one
    fixed text that lists all nine required columns, whichever is missing. *)
Theorem import_missing_column_refused (st : session_state) (df : DataFrame) (c : string) :
  c ∈ required_cols ->
  c ∉ columns df ->
  process_excel df st = (st, Rejected (error msg_missing_cols))
  ∧ Forall (fun c' => mentions c' msg_missing_cols = true) required_cols.
Proof.
  intros Hc Hdf. split.
  - apply process_excel_refused. by eapply issubset_false.
  - unfold required_cols. repeat constructor.
Qed.

Lemma import_missing_column_refused_witness :
  "중등" ∈ required_cols
  ∧ ("중등" ∉ header_without "중등")
  ∧ process_excel {| columns := header_without "중등"; df_rows := [busan] |}
      (process_excel table_A empty_session).1
    = ((process_excel table_A empty_session).1, Rejected (error msg_missing_cols)).
Proof.
  assert ("중등" ∈ required_cols) as H1 by solve_elem.
  assert ("중등" ∉ header_without "중등") as H2.
  { unfold header_without. intros H. apply list_elem_of_filter in H. tauto. }
  split; [exact H1|]. split; [exact H2|].
  apply (import_missing_column_refused _
           {| columns := header_without "중등"; df_rows := [busan] |} "중등" H1 H2).
Defined.

(** C7 as stated fails: the message does not single out the missing column.
    With only "중등" missing it also names "시", which the header has, and it
    is word for word the message shown when only "초등" is missing. *)
Lemma import_message_not_specific :
  (process_excel {| columns := header_without "중등"; df_rows := [] |} empty_session).2
  = Rejected (error msg_missing_cols)
  ∧ (process_excel {| columns := header_without "초등"; df_rows := [] |} empty_session).2
    = Rejected (error msg_missing_cols)
  ∧ ("시" ∈ header_without "중등")
  ∧ mentions "시" msg_missing_cols = true.
Proof.
  split; [reflexivity|]. split; [reflexivity|]. split; [|reflexivity].
  solve_elem.
Qed.

(** ** Python arithmetic *)

Lemma mul_nonfinite_l (x y : float) : nonfinite x -> nonfinite (x * y).
Proof.
  unfold nonfinite. rewrite mul_spec.
  destruct (Prim2SF x), (Prim2SF y); cbn; tauto.
Qed.

Lemma mul_nonfinite_r (x y : float) : nonfinite y -> nonfinite (x * y).
Proof.
  unfold nonfinite. rewrite mul_spec.
  destruct (Prim2SF x), (Prim2SF y); cbn; tauto.
Qed.

Lemma mul_zeroish_l (x y : float) : zeroish x -> ¬ nonfinite y -> zeroish (x * y).
Proof.
  unfold zeroish, nonfinite. rewrite mul_spec.
  destruct (Prim2SF x), (Prim2SF y); cbn; tauto.
Qed.

Lemma mul_zeroish_r (x y : float) : ¬ nonfinite x -> zeroish y -> zeroish (x * y).
Proof.
  unfold zeroish, nonfinite. rewrite mul_spec.
  destruct (Prim2SF x), (Prim2SF y); cbn; tauto.
Qed.

Lemma div100_nonfinite (x : float) : nonfinite x -> nonfinite (x / 100).
Proof.
  unfold nonfinite. rewrite div_spec.
  destruct (Prim2SF x); cbn; tauto.
Qed.

Lemma div100_zeroish (x : float) : zeroish x -> zeroish (x / 100).
Proof.
  unfold zeroish. rewrite div_spec.
  destruct (Prim2SF x); cbn; tauto.
Qed.

Lemma round_float_nonfinite (x : float) :
  nonfinite x -> exists e, round_float x = Raise e.
Proof.
  unfold nonfinite, round_float. destruct (Prim2SF x); try tauto; eauto.
Qed.

Lemma round_float_zeroish (x : float) : zeroish x -> round_float x = Ok 0.
Proof. unfold zeroish, round_float. destruct (Prim2SF x); tauto. Qed.

Lemma round_float_Ok (x : float) (n : Z) : round_float x = Ok n -> ¬ nonfinite x.
Proof.
  intros H Hn. apply round_float_nonfinite in Hn as [e He]. congruence.
Qed.

Lemma float_of_int_0 : float_of_int 0 = Ok 0%float.
Proof. reflexivity. Qed.

Lemma truediv_float_100 (x : float) : truediv (PFloat x) (PInt 100) = Ok (PFloat (x / 100)).
Proof. reflexivity. Qed.

Lemma rhe_scaled_nearest (m : Z) (p : positive) :
  0 <= m ->
  let d := 2 ^ Zpos p in
  let n := rhe_scaled m (Zneg p) in
  2 * Z.abs (n * d - m) <= d ∧ (2 * Z.abs (n * d - m) = d -> Z.even n = true).
Proof.
  intros Hm d n. subst n. unfold rhe_scaled. fold d.
  assert (0 < d) as Hd by (subst d; lia).
  pose proof (Z.div_mod m d ltac:(lia)) as Hdm.
  pose proof (Z.mod_pos_bound m d Hd) as Hr.
  set (q := m / d) in *. set (r := m mod d) in *.
  destruct (Z.compare_spec (2 * r) d) as [He|Hl|Hg].
  - destruct (Z.even q) eqn:Hq.
    + split; [lia|done].
    + split; [lia|]. intros _. rewrite Z.even_add, Hq. done.
  - split; [lia|]. intros Habs. lia.
  - split; [lia|]. intros Habs. lia.
Qed.

Lemma round_float_nearest (x : float) (n : Z) :
  round_float x = Ok n -> nearest_integer x n.
Proof.
  unfold round_float, nearest_integer.
  destruct (Prim2SF x) as [s|s| |s m e]; try done; try (by intros [= <-]).
  intros [= <-].
  destruct e as [|p|p]; [destruct s; cbn [cond_Zopp rhe_scaled]; lia ..|].
  destruct (rhe_scaled_nearest (Zpos m) p ltac:(lia)) as [H1 H2].
  destruct s; cbn [cond_Zopp]; [|done].
  rewrite Z.even_opp.
  replace (- rhe_scaled (Z.pos m) (Z.neg p) * 2 ^ Z.pos p - - Z.pos m)
    with (- (rhe_scaled (Z.pos m) (Z.neg p) * 2 ^ Z.pos p - Z.pos m)) by lia.
  rewrite Z.abs_opp. done.
Qed.

(** ** Estimator *)

Lemma selected_existsb (city region housing_type subtype scale : string) :
  existsb str_falsy [city; region; housing_type; subtype; scale] = false
  <-> selected city region housing_type subtype scale.
Proof.
  unfold selected. rewrite !Forall_cons, Forall_nil. cbn [existsb].
  rewrite !orb_false_iff. unfold str_falsy. rewrite !bool_decide_eq_false. tauto.
Qed.

Lemma dict_falsy_true (d : entry) : dict_falsy d = true <-> d = ∅.
Proof. unfold dict_falsy. rewrite bool_decide_eq_true. apply map_size_empty_iff. Qed.

Lemma dict_falsy_false (d : entry) : dict_falsy d = false <-> d ≠ ∅.
Proof. rewrite <- dict_falsy_true. by destruct (dict_falsy d). Qed.

Section checks.
Context (city region housing_type subtype scale : string) (units : Z) (st : session_state).
Let p : path := (region, housing_type, subtype, scale).
Let res := calculate_student_counts city region housing_type subtype scale units st.

Lemma calculate_unselected :
  ¬ selected city region housing_type subtype scale ->
  res = (st, Rejected (error msg_select_all)).
Proof.
  intros H. subst res. unfold calculate_student_counts.
  destruct (existsb str_falsy _) eqn:E; [done|]. by apply selected_existsb in E.
Qed.

Lemma calculate_units :
  selected city region housing_type subtype scale -> units <= 0 ->
  res = (st, Rejected (warning msg_units)).
Proof.
  intros H Hu. subst res. unfold calculate_student_counts.
  apply selected_existsb in H. rewrite H.
  by rewrite (proj2 (Z.leb_le units 0) Hu).
Qed.

Lemma calculate_no_rate :
  selected city region housing_type subtype scale -> 0 < units ->
  get_node (rates st) p ∅ = ∅ ->
  res = (st, Rejected (warning msg_no_rate)).
Proof.
  intros H Hu Hd. subst res p. unfold calculate_student_counts.
  apply selected_existsb in H. rewrite H.
  rewrite (proj2 (Z.leb_gt units 0) Hu), Hd. done.
Qed.

Lemma calculate_no_high_school :
  selected city region housing_type subtype scale -> 0 < units ->
  get_node (rates st) p ∅ ≠ ∅ ->
  get_node (high_school_rates st) p ∅ = ∅ ->
  res = (st, Rejected (warning msg_no_high_school)).
Proof.
  intros H Hu Hd Hh. subst res p. unfold calculate_student_counts.
  apply selected_existsb in H. rewrite H.
  rewrite (proj2 (Z.leb_gt units 0) Hu).
  apply dict_falsy_false in Hd. rewrite Hd, Hh. done.
Qed.

Lemma calculate_configured :
  selected city region housing_type subtype scale -> 0 < units ->
  get_node (rates st) p ∅ ≠ ∅ ->
  get_node (high_school_rates st) p ∅ ≠ ∅ ->
  res = estimate_entries city region housing_type subtype scale units st
          (get_node (rates st) p ∅) (get_node (high_school_rates st) p ∅).
Proof.
  intros H Hu Hd Hh. subst res p. unfold calculate_student_counts.
  apply selected_existsb in H. rewrite H.
  rewrite (proj2 (Z.leb_gt units 0) Hu).
  apply dict_falsy_false in Hd, Hh. rewrite Hd, Hh. done.
Qed.
End checks.

Lemma estimate_entries_effect
    (city region housing_type subtype scale : string) (units : Z)
    (st : session_state) (data hd : entry) :
  let res := estimate_entries city region housing_type subtype scale units st data hd in
  (exists shown e, res = (st, Raised shown e))
  ∨ (exists shown c,
       res = (with_results st
                (calculated_results st ++
                 [mk_result city region housing_type subtype scale units c]),
              Succeeded shown)).
Proof.
  unfold estimate_entries.
  destruct (_ ≫= _) as [[c hb]|e]; [|left; eauto].
  destruct (calculation_basis_text _ _ _ _); [right|left]; eauto.
Qed.

Lemma get_node_None (t : table) (p : path) : lookup4 t p = None -> get_node t p ∅ = ∅.
Proof. intros H. unfold get_node. by rewrite H. Qed.

Lemma get_node_Some (t : table) (p : path) (d : entry) :
  lookup4 t p = Some d -> get_node t p ∅ = d.
Proof. intros H. unfold get_node. by rewrite H. Qed.

(** C4: the estimator makes its four checks in this order: a selector is
    empty, the unit count is not positive, the rate table has nothing at the
    path, the high-school table has nothing at the path; each stops the call
    with a message of its own.  A call that stops this way returns the
    session as it was; a call that succeeds leaves both tables as they were
    and adds exactly one row at the end of the ledger; a call that raises
    returns the session as it was. *)
Theorem estimate_checks_in_order
    (city region housing_type subtype scale : string) (units : Z) (st : session_state) :
  let res := calculate_student_counts city region housing_type subtype scale units st in
  let p : path := (region, housing_type, subtype, scale) in
  let chosen := selected city region housing_type subtype scale in
  (¬ chosen -> res = (st, Rejected (error msg_select_all)))
  ∧ (chosen -> units <= 0 -> res = (st, Rejected (warning msg_units)))
  ∧ (chosen -> 0 < units -> lookup4 (rates st) p = None ->
     res = (st, Rejected (warning msg_no_rate)))
  ∧ (chosen -> 0 < units ->
     (exists d, lookup4 (rates st) p = Some d ∧ d ≠ ∅) ->
     lookup4 (high_school_rates st) p = None ->
     res = (st, Rejected (warning msg_no_high_school)))
  ∧ NoDup [msg_select_all; msg_units; msg_no_rate; msg_no_high_school]
  ∧ (forall u, res.2 = Rejected u ->
       res.1 = st
       ∧ u ∈ [error msg_select_all; warning msg_units; warning msg_no_rate;
              warning msg_no_high_school])
  ∧ (forall shown, res.2 = Succeeded shown ->
       rates res.1 = rates st
       ∧ high_school_rates res.1 = high_school_rates st
       ∧ exists r, calculated_results res.1 = calculated_results st ++ [r])
  ∧ (forall shown e, res.2 = Raised shown e -> res.1 = st).
Proof.
  intros res p chosen. subst p.
  split; [apply calculate_unselected|].
  split; [apply calculate_units|].
  split; [intros Hc Hu Hn; apply calculate_no_rate; auto using get_node_None|].
  split.
  { intros Hc Hu (d & Hd & Hne) Hn. apply calculate_no_high_school; [done|done| |].
    - by rewrite (get_node_Some _ _ _ Hd).
    - by apply get_node_None. }
  split; [solve_elem|].
  assert (res = (st, Rejected (error msg_select_all))
          ∨ res = (st, Rejected (warning msg_units))
          ∨ res = (st, Rejected (warning msg_no_rate))
          ∨ res = (st, Rejected (warning msg_no_high_school))
          ∨ exists data hd, res = estimate_entries city region housing_type subtype scale
                                    units st data hd) as Hcases.
  { destruct (decide chosen) as [Hc|Hc];
      [|left; by apply calculate_unselected].
    destruct (Z_le_gt_dec units 0) as [Hu|Hu];
      [right; left; by apply calculate_units|].
    destruct (dict_falsy (get_node (rates st) (region, housing_type, subtype, scale) ∅)) eqn:Hd.
    { right; right; left. apply calculate_no_rate; [done|lia|by apply dict_falsy_true]. }
    destruct (dict_falsy (get_node (high_school_rates st)
                            (region, housing_type, subtype, scale) ∅)) eqn:Hh.
    { right; right; right; left.
      apply calculate_no_high_school;
        [done|lia|by apply dict_falsy_false|by apply dict_falsy_true]. }
    right; right; right; right. eexists _, _.
    apply calculate_configured; [done|lia|by apply dict_falsy_false..]. }
  destruct Hcases as [E|[E|[E|[E|(data & hd & E)]]]]; rewrite E; cbn [fst snd].
  1-4: split; [intros u [= <-]; split; [done|repeat constructor]|]; split; [done|done].
  pose proof (estimate_entries_effect city region housing_type subtype scale units st data hd)
    as [(shown & e & E')|(shown & c & E')]; cbn zeta in E'; rewrite E'; cbn [fst snd].
  - split; [done|]. split; [done|]. done.
  - split; [done|]. split; [|done]. intros shown' _.
    split; [done|]. split; [done|]. eauto.
Qed.

Lemma estimate_checks_in_order_witness :
  calculate_student_counts "" "서울 강남구" "아파트" "분양" "84㎡" 100 example_session
  = (example_session, Rejected (error msg_select_all))
  ∧ calculate_student_counts "서울" "서울 강남구" "아파트" "분양" "84㎡" 0 example_session
    = (example_session, Rejected (warning msg_units))
  ∧ calculate_student_counts "서울" "서울 강남구" "아파트" "임대" "84㎡" 100 example_session
    = (example_session, Rejected (warning msg_no_rate))
  ∧ calculate_student_counts "서울" "서울 강남구" "아파트" "분양" "84㎡" 100
      (with_tables example_session (rates example_session) ∅)
    = (with_tables example_session (rates example_session) ∅,
       Rejected (warning msg_no_high_school)).
Proof.
  assert (forall s : string, s ≠ "" ->
            selected s "서울 강남구" "아파트" "분양" "84㎡") as Hsel
    by (intros s Hs; repeat constructor; done).
  split; [|split; [|split]].
  - apply (estimate_checks_in_order "" "서울 강남구" "아파트" "분양" "84㎡" 100 example_session).
    intros H. by apply Forall_cons_1 in H as [H _].
  - apply (estimate_checks_in_order "서울" "서울 강남구" "아파트" "분양" "84㎡" 0 example_session);
      [by apply Hsel|lia].
  - apply (estimate_checks_in_order "서울" "서울 강남구" "아파트" "임대" "84㎡" 100 example_session);
      [repeat constructor; done|lia|reflexivity].
  - apply (estimate_checks_in_order "서울" "서울 강남구" "아파트" "분양" "84㎡" 100
             (with_tables example_session (rates example_session) ∅));
      [by apply Hsel|lia| |reflexivity].
    eexists. split; [reflexivity|apply insert_non_empty].
Defined.

Lemma student_counts_floats (units : Z) (er mr p r : float) :
  student_counts units (PFloat er) (PFloat mr) (PFloat p) (PFloat r)
  = spec_estimate units er mr p r.
Proof.
  unfold student_counts, spec_estimate. cbn [mul].
  destruct (float_of_int units) as [u|e]; [|done]. cbn [mbind result_bind].
  repeat rewrite truediv_float_100. cbn [mbind result_bind round].
  destruct (round_float (u * er / 100)) as [el|e]; [|done]. cbn [mbind result_bind].
  destruct (float_of_int el) as [fl|e]; [|done]. cbn [mbind result_bind round].
  destruct (round_float (fl * 0.5)) as [k|e]; [|done]. cbn [mbind result_bind].
  destruct (round_float (u * mr / 100)) as [m|e]; [|done]. cbn [mbind result_bind].
  repeat rewrite truediv_float_100. cbn [mbind result_bind round]. done.
Qed.

Lemma int_float_Ok (x : float) : ¬ nonfinite x -> exists z, int (PFloat x) = Ok z.
Proof.
  unfold nonfinite, int. destruct (Prim2SF x); try tauto; eauto.
Qed.

(** When the high-school figure could be rounded, the stored headcount is a
    finite number, so formatting it for the narrative cannot fail. *)
Lemma spec_estimate_headcount_finite (units : Z) (er mr p r : float) (c : counts) :
  spec_estimate units er mr p r = Ok c -> ¬ nonfinite p.
Proof.
  unfold spec_estimate. intros H Hp.
  destruct (float_of_int units) as [u|e]; [|done]. cbn [mbind result_bind] in H.
  destruct (round_float (u * er / 100)) as [el|e]; [|done]. cbn [mbind result_bind] in H.
  destruct (float_of_int el) as [fl|e]; [|done]. cbn [mbind result_bind] in H.
  destruct (round_float (fl * 0.5)) as [k|e]; [|done]. cbn [mbind result_bind] in H.
  destruct (round_float (u * mr / 100)) as [m|e]; [|done]. cbn [mbind result_bind] in H.
  destruct (round_float (u * p * r / 100)) as [h|e] eqn:Eh; [|done].
  apply round_float_Ok in Eh. apply Eh.
  by apply div100_nonfinite, mul_nonfinite_l, mul_nonfinite_r.
Qed.

Lemma spec_estimate_nearest (units : Z) (er mr p r : float) (c : counts) :
  spec_estimate units er mr p r = Ok c ->
  exists u el,
    float_of_int units = Ok u ∧ float_of_int (cnt_e c) = Ok el
    ∧ nearest_integer (u * er / 100) (cnt_e c)
    ∧ nearest_integer (el * 0.5) (cnt_k c)
    ∧ nearest_integer (u * mr / 100) (cnt_m c)
    ∧ nearest_integer (u * p * r / 100) (cnt_h c).
Proof.
  unfold spec_estimate. intros H.
  destruct (float_of_int units) as [u|e]; [|done]. cbn [mbind result_bind] in H.
  destruct (round_float (u * er / 100)) as [el|e] eqn:E1; [|done].
  cbn [mbind result_bind] in H.
  destruct (float_of_int el) as [fl|e] eqn:E0; [|done]. cbn [mbind result_bind] in H.
  destruct (round_float (fl * 0.5)) as [k|e] eqn:E2; [|done]. cbn [mbind result_bind] in H.
  destruct (round_float (u * mr / 100)) as [m|e] eqn:E3; [|done].
  cbn [mbind result_bind] in H.
  destruct (round_float (u * p * r / 100)) as [h|e] eqn:E4; [|done].
  injection H as <-. exists u, fl. cbn [cnt_e cnt_k cnt_m cnt_h].
  auto 10 using round_float_nearest.
Qed.

(** C1: for a configured key path and a unit count above zero the estimator
    computes the four figures by the formulas of the specification, the
    kindergarten figure from the elementary figure already rounded, and
    records them; each figure is an integer nearest to the value it rounds.
    When a formula cannot be rounded (its value is NaN or infinite) the call
    raises and records nothing. *)
Theorem estimate_formulas
    (city region housing_type subtype scale : string) (units : Z) (st : session_state)
    (data hd : entry) (er mr p r : float) :
  selected city region housing_type subtype scale ->
  0 < units ->
  lookup4 (rates st) (region, housing_type, subtype, scale) = Some data ->
  data !! "초등" = Some (PFloat er) ->
  data !! "중등" = Some (PFloat mr) ->
  lookup4 (high_school_rates st) (region, housing_type, subtype, scale) = Some hd ->
  hd !! "인원" = Some (PFloat p) ->
  hd !! "발생률" = Some (PFloat r) ->
  match spec_estimate units er mr p r with
  | Ok c =>
      (exists shown,
         calculate_student_counts city region housing_type subtype scale units st
         = (with_results st
              (calculated_results st ++
               [mk_result city region housing_type subtype scale units c]),
            Succeeded shown))
      ∧ (exists u el,
           float_of_int units = Ok u ∧ float_of_int (cnt_e c) = Ok el
           ∧ nearest_integer (u * er / 100) (cnt_e c)
           ∧ nearest_integer (el * 0.5) (cnt_k c)
           ∧ nearest_integer (u * mr / 100) (cnt_m c)
           ∧ nearest_integer (u * p * r / 100) (cnt_h c))
  | Raise e =>
      calculate_student_counts city region housing_type subtype scale units st
      = (st, Raised [] e)
  end.
Proof.
  intros Hsel Hu Hd He Hm Hh Hp Hr.
  rewrite calculate_configured; [|done|done|..].
  2: { rewrite (get_node_Some _ _ _ Hd). intros ->. by rewrite lookup_empty in He. }
  2: { rewrite (get_node_Some _ _ _ Hh). intros ->. by rewrite lookup_empty in Hp. }
  rewrite (get_node_Some _ _ _ Hd), (get_node_Some _ _ _ Hh).
  unfold estimate_entries. rewrite He, Hm, Hp, Hr. cbn [from_option id].
  rewrite student_counts_floats.
  destruct (spec_estimate units er mr p r) as [c|e] eqn:E; [|done].
  cbn [mbind result_bind].
  destruct (int_float_Ok p (spec_estimate_headcount_finite _ _ _ _ _ _ E)) as [z Hz].
  unfold h_basis_text, format_number. rewrite Hz.
  cbn [mbind result_bind format_percentage calculation_basis_text].
  split; [eauto|]. by apply spec_estimate_nearest.
Qed.

Lemma example_session_tables :
  lookup4 (rates example_session) ("서울 강남구", "아파트", "분양", "84㎡")
  = Some {[ "초등" := PFloat 12.5; "중등" := PFloat 6 ]}
  ∧ lookup4 (high_school_rates example_session) ("서울 강남구", "아파트", "분양", "84㎡")
    = Some {[ "인원" := PFloat 0.8; "발생률" := PFloat 15 ]}.
Proof. split; reflexivity. Qed.

Lemma estimate_formulas_witness :
  selected "서울" "서울 강남구" "아파트" "분양" "84㎡"
  ∧ 0 < 100
  ∧ exists shown,
      calculate_student_counts "서울" "서울 강남구" "아파트" "분양" "84㎡" 100 example_session
      = (with_results example_session
           (calculated_results example_session ++
            [mk_result "서울" "서울 강남구" "아파트" "분양" "84㎡" 100 example_counts]),
         Succeeded shown).
Proof.
  assert (selected "서울" "서울 강남구" "아파트" "분양" "84㎡") as Hsel
    by (repeat constructor; done).
  split; [exact Hsel|]. split; [lia|].
  pose proof (estimate_formulas "서울" "서울 강남구" "아파트" "분양" "84㎡" 100 example_session
                {[ "초등" := PFloat 12.5; "중등" := PFloat 6 ]}
                {[ "인원" := PFloat 0.8; "발생률" := PFloat 15 ]}
                12.5 6 0.8 15 Hsel ltac:(lia)
                eq_refl eq_refl eq_refl eq_refl eq_refl eq_refl) as H.
  change (spec_estimate 100 12.5 6 0.8 15) with (Ok example_counts) in H.
  exact (proj1 H).
Defined.

(** C2 (as the code has it): on the example of the specification the
    estimator records elementary 12, kindergarten 6, middle 6 and high 12.
    [100 * 12.5 / 100] is exactly 12.5, halfway between 12 and 13, and
    [round] takes the even neighbour. *)
Theorem example_estimate :
  (calculate_student_counts "서울" "서울 강남구" "아파트" "분양" "84㎡" 100 example_session).1
  = with_results example_session
      [{| res_city := "서울"; res_region := "서울 강남구"; res_housing_type := "아파트";
          res_subtype := "분양"; res_scale := "84㎡"; res_units := 100;
          res_kindergarten := 6; res_elementary := 12; res_middle := 6; res_high := 12 |}]
  ∧ (exists shown,
       (calculate_student_counts "서울" "서울 강남구" "아파트" "분양" "84㎡" 100
          example_session).2 = Succeeded shown)
  ∧ spec_estimate 100 12.5 6 0.8 15 = Ok example_counts
  ∧ Prim2SF (100 * 12.5 / 100) = Prim2SF 12.5.
Proof.
  split; [by vm_compute|]. split; [|split; by vm_compute].
  eexists. vm_compute. reflexivity.
Qed.

(** C2 as stated fails: the elementary figure recorded for the example is
    12, not 13. *)
Lemma example_elementary_is_not_13 :
  res_elementary <$>
    calculated_results
      (calculate_student_counts "서울" "서울 강남구" "아파트" "분양" "84㎡" 100
         example_session).1
  = [12]
  ∧ 12 ≠ 13.
Proof. split; [by vm_compute|lia]. Qed.

(** ** Entries with a missing field *)

Lemma student_counts_figures (units : Z) (er mr p r : num) :
  student_counts units er mr p r
  = e ← figure units er; k ← half_figure e; m ← figure units mr;
    h ← high_figure units p r;
    Ok {| cnt_e := e; cnt_k := k; cnt_m := m; cnt_h := h |}.
Proof.
  unfold student_counts, figure, half_figure, high_figure.
  destruct (mul (PInt units) er) as [x|]; [|done]. cbn [mbind result_bind].
  destruct (truediv x (PInt 100)) as [y|]; [|done]. cbn [mbind result_bind].
  destruct (round y) as [e|]; [|done]. cbn [mbind result_bind].
  destruct (mul (PInt e) (PFloat 0.5)) as [x'|]; [|done]. cbn [mbind result_bind].
  destruct (round x') as [k|]; [|done]. cbn [mbind result_bind].
  destruct (mul (PInt units) mr) as [x''|]; [|done]. cbn [mbind result_bind].
  destruct (truediv x'' (PInt 100)) as [y''|]; [|done]. cbn [mbind result_bind].
  destruct (round y'') as [m|]; [|done]. cbn [mbind result_bind].
  destruct (mul (PInt units) p) as [a|]; [|done]. cbn [mbind result_bind].
  destruct (mul a r) as [b|]; [|done]. cbn [mbind result_bind].
  destruct (truediv b (PInt 100)) as [c|]; [|done]. cbn [mbind result_bind].
  by destruct (round c).
Qed.

Lemma figure_zero_rate (units : Z) : figure units (PInt 0) = Ok 0.
Proof. unfold figure. cbn [mul]. by rewrite Z.mul_0_r. Qed.

Lemma half_figure_zero : half_figure 0 = Ok 0.
Proof. reflexivity. Qed.

(** A product with a [float] factor, as a [float]. *)
Lemma mul_float_r (x : num) (f : float) (y : num) :
  mul x (PFloat f) = Ok y -> exists g, y = PFloat (g * f).
Proof.
  destruct x as [z|g]; cbn [mul].
  - destruct (float_of_int z) as [g|]; [|done]. intros [= <-]. eauto.
  - intros [= <-]. eauto.
Qed.

Lemma mul_float_l (f : float) (x y : num) :
  mul (PFloat f) x = Ok y -> exists g, y = PFloat (f * g).
Proof.
  destruct x as [z|g]; cbn [mul].
  - destruct (float_of_int z) as [g|]; [|done]. intros [= <-]. eauto.
  - intros [= <-]. eauto.
Qed.

Lemma round_div100_Ok (x : float) (n : Z) :
  (y ← truediv (PFloat x) (PInt 100); round y) = Ok n -> ¬ nonfinite x.
Proof.
  rewrite truediv_float_100. cbn [mbind result_bind round].
  intros H Hx. apply round_float_Ok in H. by apply H, div100_nonfinite.
Qed.

Lemma round_div100_zeroish (x : float) :
  zeroish x -> (y ← truediv (PFloat x) (PInt 100); round y) = Ok 0.
Proof.
  intros Hx. rewrite truediv_float_100. cbn [mbind result_bind round].
  by apply round_float_zeroish, div100_zeroish.
Qed.

Lemma zeroish_zero : zeroish 0.
Proof. exact I. Qed.

(** If the high-school figure can be computed with some headcount [v], it
    can be computed with the headcount read as [0], and it is [0]. *)
Lemma high_figure_zero_personnel (units : Z) (v r : num) (n : Z) :
  high_figure units v r = Ok n -> high_figure units (PInt 0) r = Ok 0.
Proof.
  unfold high_figure. intros H. cbn [mul mbind result_bind]. rewrite Z.mul_0_r.
  destruct r as [z|f]; [cbn [mul mbind result_bind]; by rewrite Z.mul_0_l|].
  destruct (mul (PInt units) v) as [x|]; [|done]. cbn [mbind result_bind] in H.
  destruct (mul x (PFloat f)) as [y|] eqn:E; [|done]. cbn [mbind result_bind] in H.
  apply mul_float_r in E as [g ->]. apply round_div100_Ok in H.
  cbn [mul]. rewrite float_of_int_0. cbn [mbind result_bind].
  apply round_div100_zeroish, mul_zeroish_l; [exact zeroish_zero|].
  intros Hf. by apply H, mul_nonfinite_r.
Qed.

(** The same for the occupancy rate. *)
Lemma high_figure_zero_rate (units : Z) (p v : num) (n : Z) :
  high_figure units p v = Ok n -> high_figure units p (PInt 0) = Ok 0.
Proof.
  unfold high_figure. intros H.
  destruct (mul (PInt units) p) as [x|]; [|done]. cbn [mbind result_bind] in *.
  destruct x as [z|f]; [cbn [mul mbind result_bind]; by rewrite Z.mul_0_r|].
  destruct (mul (PFloat f) v) as [y|] eqn:E; [|done]. cbn [mbind result_bind] in H.
  apply mul_float_l in E as [g ->]. apply round_div100_Ok in H.
  cbn [mul]. rewrite float_of_int_0. cbn [mbind result_bind].
  apply round_div100_zeroish, mul_zeroish_r; [|exact zeroish_zero].
  intros Hf. by apply H, mul_nonfinite_l.
Qed.

Section entries.
Context (city region housing_type subtype scale : string) (units : Z).

Lemma estimate_entries_completes (st : session_state) (data hd : entry) (shown : list ui) :
  (estimate_entries city region housing_type subtype scale units st data hd).2
    = Succeeded shown ->
  let '(er, mr, p, r) := entry_values data hd in
  exists c, completes units er mr p r c.
Proof.
  unfold estimate_entries, entry_values, completes, displays,
    h_basis_text, calculation_basis_text.
  destruct (student_counts _ _ _ _ _) as [c|]; [|done]. cbn [mbind result_bind].
  destruct (format_number _) as [a|]; [|done]. cbn [mbind result_bind].
  destruct (format_percentage (default (PInt 0) (hd !! "발생률"))) as [b|]; [|done].
  cbn [mbind result_bind].
  destruct (format_percentage (default (PInt 0) (data !! "초등"))) as [a'|]; [|done].
  cbn [mbind result_bind].
  destruct (format_percentage (default (PInt 0) (data !! "중등"))) as [b'|]; [|done].
  intros _. exists c. eauto 10.
Qed.

Lemma completes_estimate_entries (st : session_state) (data hd : entry) (c : counts) :
  (let '(er, mr, p, r) := entry_values data hd in completes units er mr p r c) ->
  exists shown,
    estimate_entries city region housing_type subtype scale units st data hd
    = (with_results st
         (calculated_results st ++
          [mk_result city region housing_type subtype scale units c]),
       Succeeded shown).
Proof.
  unfold estimate_entries, entry_values, completes, displays,
    h_basis_text, calculation_basis_text.
  intros (-> & [a ->] & [b ->] & [a' ->] & [b' ->]). cbn [mbind result_bind]. eauto.
Qed.
End entries.

Lemma displays_zero : exists a, format_percentage (PInt 0) = Ok a.
Proof. by eexists. Qed.

Lemma displays_zero_number : exists a, format_number (PInt 0) = Ok a.
Proof. by eexists. Qed.

Lemma completes_without_elementary (units : Z) (v mr p r : num) (c : counts) :
  completes units v mr p r c ->
  exists c', completes units (PInt 0) mr p r c' ∧ cnt_e c' = 0 ∧ cnt_k c' = 0.
Proof.
  intros [Hc (_ & Hm & Hp & Hr)]. rewrite student_counts_figures in Hc.
  destruct (figure units v) as [e|]; [|done]. cbn [mbind result_bind] in Hc.
  destruct (half_figure e) as [k|]; [|done]. cbn [mbind result_bind] in Hc.
  destruct (figure units mr) as [m|] eqn:Em; [|done]. cbn [mbind result_bind] in Hc.
  destruct (high_figure units p r) as [h|] eqn:Eh; [|done].
  exists {| cnt_e := 0; cnt_k := 0; cnt_m := m; cnt_h := h |}.
  split; [|done]. split; [|by split; [apply displays_zero|]].
  rewrite student_counts_figures, figure_zero_rate. cbn [mbind result_bind].
  rewrite half_figure_zero. cbn [mbind result_bind]. by rewrite Em, Eh.
Qed.

Lemma completes_without_middle (units : Z) (er v p r : num) (c : counts) :
  completes units er v p r c ->
  exists c', completes units er (PInt 0) p r c' ∧ cnt_m c' = 0.
Proof.
  intros [Hc (He & _ & Hp & Hr)]. rewrite student_counts_figures in Hc.
  destruct (figure units er) as [e|] eqn:Ee; [|done]. cbn [mbind result_bind] in Hc.
  destruct (half_figure e) as [k|] eqn:Ek; [|done]. cbn [mbind result_bind] in Hc.
  destruct (figure units v) as [m|]; [|done]. cbn [mbind result_bind] in Hc.
  destruct (high_figure units p r) as [h|] eqn:Eh; [|done].
  exists {| cnt_e := e; cnt_k := k; cnt_m := 0; cnt_h := h |}.
  split; [|done]. split; [|by split; [|split; [apply displays_zero|]]].
  rewrite student_counts_figures, Ee. cbn [mbind result_bind].
  rewrite Ek. cbn [mbind result_bind]. rewrite figure_zero_rate. cbn [mbind result_bind].
  by rewrite Eh.
Qed.

Lemma completes_without_personnel (units : Z) (er mr v r : num) (c : counts) :
  completes units er mr v r c ->
  exists c', completes units er mr (PInt 0) r c' ∧ cnt_h c' = 0.
Proof.
  intros [Hc (He & Hm & _ & Hr)]. rewrite student_counts_figures in Hc.
  destruct (figure units er) as [e|] eqn:Ee; [|done]. cbn [mbind result_bind] in Hc.
  destruct (half_figure e) as [k|] eqn:Ek; [|done]. cbn [mbind result_bind] in Hc.
  destruct (figure units mr) as [m|] eqn:Em; [|done]. cbn [mbind result_bind] in Hc.
  destruct (high_figure units v r) as [h|] eqn:Eh; [|done].
  apply high_figure_zero_personnel in Eh.
  exists {| cnt_e := e; cnt_k := k; cnt_m := m; cnt_h := 0 |}.
  split; [|done]. split; [|by split; [|split; [|split; [apply displays_zero_number|]]]].
  rewrite student_counts_figures, Ee. cbn [mbind result_bind].
  rewrite Ek. cbn [mbind result_bind]. rewrite Em. cbn [mbind result_bind].
  by rewrite Eh.
Qed.

Lemma completes_without_rate (units : Z) (er mr p v : num) (c : counts) :
  completes units er mr p v c ->
  exists c', completes units er mr p (PInt 0) c' ∧ cnt_h c' = 0.
Proof.
  intros [Hc (He & Hm & Hp & _)]. rewrite student_counts_figures in Hc.
  destruct (figure units er) as [e|] eqn:Ee; [|done]. cbn [mbind result_bind] in Hc.
  destruct (half_figure e) as [k|] eqn:Ek; [|done]. cbn [mbind result_bind] in Hc.
  destruct (figure units mr) as [m|] eqn:Em; [|done]. cbn [mbind result_bind] in Hc.
  destruct (high_figure units p v) as [h|] eqn:Eh; [|done].
  apply high_figure_zero_rate in Eh.
  exists {| cnt_e := e; cnt_k := k; cnt_m := m; cnt_h := 0 |}.
  split; [|done]. split; [|by split; [|split; [|split; [|apply displays_zero]]]].
  rewrite student_counts_figures, Ee. cbn [mbind result_bind].
  rewrite Ek. cbn [mbind result_bind]. rewrite Em. cbn [mbind result_bind].
  by rewrite Eh.
Qed.

Section missing.
Context (city region housing_type subtype scale : string) (units : Z).
Context (st : session_state) (data hd : entry).
Let q : path := (region, housing_type, subtype, scale).
Let run := calculate_student_counts city region housing_type subtype scale units.
Let recorded := records city region housing_type subtype scale units st.
Context (Hsel : selected city region housing_type subtype scale) (Hu : 0 < units).
Context (Hd : lookup4 (rates st) q = Some data) (Hdne : data ≠ ∅).
Context (Hh : lookup4 (high_school_rates st) q = Some hd) (Hhne : hd ≠ ∅).

Lemma run_configured :
  run st = estimate_entries city region housing_type subtype scale units st data hd.
Proof.
  subst run q. rewrite calculate_configured; [|done|done|..].
  - by rewrite (get_node_Some _ _ _ Hd), (get_node_Some _ _ _ Hh).
  - by rewrite (get_node_Some _ _ _ Hd).
  - by rewrite (get_node_Some _ _ _ Hh).
Qed.

Lemma run_fill_rate (key : string) (v : num) :
  run (fill_rate st q key v)
  = estimate_entries city region housing_type subtype scale units
      (fill_rate st q key v) (<[key := v]> data) hd.
Proof.
  subst run q. unfold fill_rate. rewrite (get_node_Some _ _ _ Hd).
  rewrite calculate_configured; [|done|done|..];
    cbn [rates high_school_rates with_tables]; unfold get_node;
    rewrite ?lookup4_store4, ?decide_True, ?Hh by done; cbn [from_option id];
    [done|apply insert_non_empty|done].
Qed.

Lemma run_fill_high_school (key : string) (v : num) :
  run (fill_high_school st q key v)
  = estimate_entries city region housing_type subtype scale units
      (fill_high_school st q key v) data (<[key := v]> hd).
Proof.
  subst run q. unfold fill_high_school. rewrite (get_node_Some _ _ _ Hh).
  rewrite calculate_configured; [|done|done|..];
    cbn [rates high_school_rates with_tables]; unfold get_node;
    rewrite ?lookup4_store4, ?decide_True, ?Hd by done; cbn [from_option id];
    [done|done|apply insert_non_empty].
Qed.

Lemma records_of_completes (c : counts) (P : result_row -> Prop) :
  (let '(er, mr, p, r) := entry_values data hd in completes units er mr p r c) ->
  P (mk_result city region housing_type subtype scale units c) ->
  recorded P.
Proof.
  intros Hc HP. unfold recorded, records. fold run. rewrite run_configured.
  destruct (completes_estimate_entries city region housing_type subtype scale units
              st data hd c Hc) as [shown ->]. eauto.
Qed.

Lemma missing_elementary (v : num) (shown : list ui) :
  data !! "초등" = None ->
  (run (fill_rate st q "초등" v)).2 = Succeeded shown ->
  recorded (fun row => res_elementary row = 0 ∧ res_kindergarten row = 0).
Proof.
  intros Hm Hs. rewrite run_fill_rate in Hs.
  apply estimate_entries_completes in Hs. unfold entry_values in Hs.
  rewrite lookup_insert_eq, lookup_insert_ne in Hs by done. cbn [from_option id] in Hs.
  destruct Hs as [c Hc]. apply completes_without_elementary in Hc as (c' & Hc' & He & Hk).
  apply (records_of_completes c'); [|done].
  unfold entry_values. by rewrite Hm.
Qed.

Lemma missing_middle (v : num) (shown : list ui) :
  data !! "중등" = None ->
  (run (fill_rate st q "중등" v)).2 = Succeeded shown ->
  recorded (fun row => res_middle row = 0).
Proof.
  intros Hm Hs. rewrite run_fill_rate in Hs.
  apply estimate_entries_completes in Hs. unfold entry_values in Hs.
  rewrite lookup_insert_eq, lookup_insert_ne in Hs by done. cbn [from_option id] in Hs.
  destruct Hs as [c Hc]. apply completes_without_middle in Hc as (c' & Hc' & He).
  apply (records_of_completes c'); [|done].
  unfold entry_values. by rewrite Hm.
Qed.

Lemma missing_personnel (v : num) (shown : list ui) :
  hd !! "인원" = None ->
  (run (fill_high_school st q "인원" v)).2 = Succeeded shown ->
  recorded (fun row => res_high row = 0).
Proof.
  intros Hm Hs. rewrite run_fill_high_school in Hs.
  apply estimate_entries_completes in Hs. unfold entry_values in Hs.
  rewrite lookup_insert_eq, lookup_insert_ne in Hs by done. cbn [from_option id] in Hs.
  destruct Hs as [c Hc]. apply completes_without_personnel in Hc as (c' & Hc' & He).
  apply (records_of_completes c'); [|done].
  unfold entry_values. by rewrite Hm.
Qed.

Lemma missing_rate (v : num) (shown : list ui) :
  hd !! "발생률" = None ->
  (run (fill_high_school st q "발생률" v)).2 = Succeeded shown ->
  recorded (fun row => res_high row = 0).
Proof.
  intros Hm Hs. rewrite run_fill_high_school in Hs.
  apply estimate_entries_completes in Hs. unfold entry_values in Hs.
  rewrite lookup_insert_eq, lookup_insert_ne in Hs by done. cbn [from_option id] in Hs.
  destruct Hs as [c Hc]. apply completes_without_rate in Hc as (c' & Hc' & He).
  apply (records_of_completes c'); [|done].
  unfold entry_values. by rewrite Hm.
Qed.

Lemma configured_not_rejected (u : ui) : (run st).2 ≠ Rejected u.
Proof.
  rewrite run_configured.
  pose proof (estimate_entries_effect city region housing_type subtype scale units
                st data hd) as [(shown & e & E)|(shown & c & E)];
    cbn zeta in E; by rewrite E.
Qed.
End missing.

(** C10 (as the code has it): an entry that is not empty and lacks a field
    never makes the estimator stop with a rejection; the missing field is
    read as [0], and whenever the call would succeed with some number [v]
    stored in its place it succeeds without it and records [0] for the
    figures computed from that field: elementary and kindergarten for
    "초등", middle for "중등", high for "인원" and for "발생률". *)
Theorem missing_field_reads_as_zero
    (city region housing_type subtype scale : string) (units : Z)
    (st : session_state) (data hd : entry) (v : num) :
  selected city region housing_type subtype scale ->
  0 < units ->
  lookup4 (rates st) (region, housing_type, subtype, scale) = Some data ->
  data ≠ ∅ ->
  lookup4 (high_school_rates st) (region, housing_type, subtype, scale) = Some hd ->
  hd ≠ ∅ ->
  let q : path := (region, housing_type, subtype, scale) in
  let run := calculate_student_counts city region housing_type subtype scale units in
  let succeeds (st' : session_state) := exists shown, (run st').2 = Succeeded shown in
  let records (P : result_row -> Prop) :=
    exists shown row,
      run st = (with_results st (calculated_results st ++ [row]), Succeeded shown) ∧ P row in
  (forall u, (run st).2 ≠ Rejected u)
  ∧ (data !! "초등" = None -> succeeds (fill_rate st q "초등" v) ->
     records (fun row => res_elementary row = 0 ∧ res_kindergarten row = 0))
  ∧ (data !! "중등" = None -> succeeds (fill_rate st q "중등" v) ->
     records (fun row => res_middle row = 0))
  ∧ (hd !! "인원" = None -> succeeds (fill_high_school st q "인원" v) ->
     records (fun row => res_high row = 0))
  ∧ (hd !! "발생률" = None -> succeeds (fill_high_school st q "발생률" v) ->
     records (fun row => res_high row = 0)).
Proof.
  intros Hsel Hu Hd Hdne Hh Hhne q run succeeds recs. subst q run succeeds recs.
  split; [intros u; by eapply configured_not_rejected|].
  split; [intros Hm [shown Hs]; by eapply missing_elementary|].
  split; [intros Hm [shown Hs]; by eapply missing_middle|].
  split; [intros Hm [shown Hs]; by eapply missing_personnel|].
  intros Hm [shown Hs]; by eapply missing_rate.
Qed.

Lemma missing_field_reads_as_zero_witness :
  selected "서울" "서울 강남구" "아파트" "분양" "84㎡"
  ∧ 0 < 100
  ∧ exists shown row,
      calculate_student_counts "서울" "서울 강남구" "아파트" "분양" "84㎡" 100 partial_session
      = (with_results partial_session (calculated_results partial_session ++ [row]),
         Succeeded shown)
      ∧ res_elementary row = 0 ∧ res_kindergarten row = 0.
Proof.
  assert (selected "서울" "서울 강남구" "아파트" "분양" "84㎡") as Hsel
    by (repeat constructor; done).
  split; [exact Hsel|]. split; [lia|].
  destruct (missing_field_reads_as_zero "서울" "서울 강남구" "아파트" "분양" "84㎡" 100
              partial_session {[ "중등" := PFloat 6 ]} {[ "발생률" := PFloat 15 ]}
              (PFloat 12.5) Hsel ltac:(lia) eq_refl
              ltac:(apply insert_non_empty) eq_refl ltac:(apply insert_non_empty))
    as (_ & H & _).
  apply H; [reflexivity|]. eexists. vm_compute. reflexivity.
Defined.

(** C10 as stated fails in two ways.  An entry that exists at the path but
    has no field at all is taken for an unconfigured combination and the
    call is rejected; and a missing headcount read as [0] next to an
    infinite occupancy rate gives [0 * inf], a NaN that [round] refuses, so
    the call raises. *)
Lemma missing_field_can_reject_or_raise :
  lookup4 (store4 ∅ ("서울 강남구", "아파트", "분양", "84㎡") ∅)
          ("서울 강남구", "아파트", "분양", "84㎡") = Some ∅
  ∧ calculate_student_counts "서울" "서울 강남구" "아파트" "분양" "84㎡" 100
      {| rates := store4 ∅ ("서울 강남구", "아파트", "분양", "84㎡") ∅;
         high_school_rates := high_school_rates example_session;
         calculated_results := [] |}
    = ({| rates := store4 ∅ ("서울 강남구", "아파트", "분양", "84㎡") ∅;
          high_school_rates := high_school_rates example_session;
          calculated_results := [] |},
       Rejected (warning msg_no_rate))
  ∧ (calculate_student_counts "서울" "서울 강남구" "아파트" "분양" "84㎡" 100
       {| rates := rates example_session;
          high_school_rates :=
            store4 ∅ ("서울 강남구", "아파트", "분양", "84㎡")
                   {[ "발생률" := PFloat infinity ]};
          calculated_results := [] |}).2
    = Raised [] ValueError.
Proof. split; [reflexivity|]. split; by vm_compute. Qed.

(** ** Export *)

(** C3 on a row whose district is "수원시 영통구": the import stores the
    leaf under the key "경기도 수원시 영통구", and the export of that one
    leaf gives the district as "수원시", the second field of the key cut at
    every space, where the rule of the specification gives "수원시 영통구".
    Joined again, the exported city and district name the key
    "경기도 수원시", which is not the leaf that was imported. *)
Theorem export_cuts_district_at_second_space :
  (leaves (rates suwon_session)).*1 = [("경기도 수원시 영통구", "아파트", "분양", "84㎡")]
  ∧ rate_data suwon_session
    = Ok [{| rr_city := "경기도"; rr_region := "수원시"; rr_housing_type := "아파트";
             rr_subtype := "분양"; rr_scale := "84㎡";
             rr_elementary := "12.50"; rr_middle := "6.00";
             rr_hs_personnel := "0.80"; rr_hs_rate := "15.00" |}]
  ∧ split_on_first_space "경기도 수원시 영통구" = ("경기도", "수원시 영통구")
  ∧ split_space "경기도 수원시 영통구" = ["경기도"; "수원시"; "영통구"].
Proof. repeat split; by vm_compute. Qed.

(** *** Export after import, for names without a space *)

Lemma elem_of_leaves (t : table) (q : path) (v : entry) :
  (q, v) ∈ leaves t <-> lookup4 t q = Some v.
Proof.
  destruct q as [[[r h] s] sc]. unfold leaves, lookup4. split.
  - intros H.
    apply list_elem_of_bind in H as ([r' types] & H & Hr).
    apply list_elem_of_bind in H as ([h' subtypes] & H & Hh).
    apply list_elem_of_bind in H as ([s' scales] & H & Hs).
    apply list_elem_of_bind in H as ([sc' v'] & H & Hsc).
    apply list_elem_of_singleton in H. injection H as -> -> -> -> ->.
    apply elem_of_map_to_list in Hr, Hh, Hs, Hsc.
    rewrite Hr. cbn. rewrite Hh. cbn. by rewrite Hs.
  - intros H.
    destruct (t !! r) as [types|] eqn:Hr; [|done]. cbn in H.
    destruct (types !! h) as [subtypes|] eqn:Hh; [|done]. cbn in H.
    destruct (subtypes !! s) as [scales|] eqn:Hs; [|done]. cbn in H.
    apply list_elem_of_bind. exists (r, types).
    split; [|by apply elem_of_map_to_list].
    apply list_elem_of_bind. exists (h, subtypes).
    split; [|by apply elem_of_map_to_list].
    apply list_elem_of_bind. exists (s, scales).
    split; [|by apply elem_of_map_to_list].
    apply list_elem_of_bind. exists (sc, v).
    split; [by apply list_elem_of_singleton|by apply elem_of_map_to_list].
Qed.

Lemma map_result_total {A B} (f : A -> B) (g : A -> result B) (l : list A) :
  (forall x, x ∈ l -> g x = Ok (f x)) -> map_result g l = Ok (f <$> l).
Proof.
  induction l as [|x l IH]; intros H; [done|].
  cbn [map_result]. rewrite (H x) by left. cbn [mbind result_bind].
  rewrite IH by (intros y Hy; apply H; by right). done.
Qed.

Lemma has_space_app (a b : string) : has_space (a +:+ b) = has_space a || has_space b.
Proof.
  induction a as [|c a IH]; [done|].
  change (is_space c || has_space (a +:+ b) = is_space c || has_space a || has_space b).
  by rewrite IH, orb_assoc.
Qed.

Lemma split_space_app (a b : string) :
  has_space a = false -> split_space (a +:+ " " +:+ b) = a :: split_space b.
Proof.
  induction a as [|c a IH]; [done|]. cbn [has_space]. intros H.
  apply orb_false_iff in H as [Hc Ha].
  change (split_space (String c a +:+ " " +:+ b))
    with (if is_space c then "" :: split_space (a +:+ " " +:+ b)
          else match split_space (a +:+ " " +:+ b) with
               | w :: ws => String c w :: ws
               | [] => [String c ""]
               end).
  rewrite Hc. by rewrite (IH Ha).
Qed.

Lemma split_space_no_space (b : string) : has_space b = false -> split_space b = [b].
Proof.
  induction b as [|c b IH]; [done|]. cbn [has_space]. intros H.
  apply orb_false_iff in H as [Hc Hb].
  change (split_space (String c b))
    with (if is_space c then "" :: split_space b
          else match split_space b with
               | w :: ws => String c w :: ws
               | [] => [String c ""]
               end).
  rewrite Hc. by rewrite (IH Hb).
Qed.

Lemma split_field_key (city district : string) :
  has_space city = false -> has_space district = false ->
  split_field 0 (city +:+ " " +:+ district) = city
  ∧ split_field 1 (city +:+ " " +:+ district) = district.
Proof.
  intros Hc Hd. unfold split_field.
  rewrite !has_space_app. cbn [has_space is_space]. rewrite orb_true_r.
  rewrite split_space_app, split_space_no_space by done. done.
Qed.

Lemma high_school_entry_ne (r : row) : dict_falsy (high_school_entry r) = false.
Proof. apply dict_falsy_false, insert_non_empty. Qed.

Lemma rate_entry_fields (r : row) :
  rate_entry r !! "초등" = Some (PFloat (round2 (row_elementary r)))
  ∧ rate_entry r !! "중등" = Some (PFloat (round2 (row_middle r))).
Proof. split; reflexivity. Qed.

Lemma high_school_entry_fields (r : row) :
  high_school_entry r !! "인원" = Some (PFloat (round2 (row_hs_personnel r)))
  ∧ high_school_entry r !! "발생률" = Some (PFloat (round2 (row_hs_rate r))).
Proof. split; reflexivity. Qed.

Lemma rate_row_of_imported (rows : list row) (r : row) :
  has_space (row_city r) = false -> has_space (row_region r) = false ->
  rate_row_of (import_rows rows).2 (row_path r, rate_entry r) = Ok (exported rows r).
Proof.
  intros Hc Hd. unfold rate_row_of, row_path, exported, high_school_field.
  destruct (rate_entry_fields r) as [-> ->].
  cbn [from_option id format_percentage mbind result_bind].
  unfold get_node.
  change (full_region r, row_housing_type r, row_subtype r, row_scale r) with (row_path r).
  rewrite lookup4_import_high_school.
  destruct (split_field_key (row_city r) (row_region r) Hc Hd) as [E0 E1].
  unfold full_region. rewrite E0, E1.
  destruct (last (high_school_rows_at (row_path r) rows)) as [r'|];
    cbn [fmap option_fmap option_map from_option id].
  - rewrite high_school_entry_ne.
    destruct (high_school_entry_fields r') as [-> ->].
    by cbn [from_option id format_percentage mbind result_bind].
  - done.
Qed.

(** X6: For rows whose city and district have no space in their names, the
    export that follows an import succeeds and shows exactly one row for
    every key of the import: the city, district, housing type, supply type
    and scale of the rows with that key, the two rates of the last of them
    rounded to two places, and the high-school figures of the last one that
    has them, or 0.00. *)
Theorem export_after_import (st : session_state) (df : DataFrame) :
  issubset required_cols (columns df) = true ->
  (forall r, r ∈ df_rows df ->
     has_space (row_city r) = false ∧ has_space (row_region r) = false) ->
  exists out,
    rate_data (process_excel df st).1 = Ok out
    ∧ forall x, x ∈ out <->
        exists r, last (rows_at (row_path r) (df_rows df)) = Some r
                  ∧ x = exported (df_rows df) r.
Proof.
  intros H Hsp. rewrite process_excel_accepted by done.
  unfold rate_data. cbn [fst rates high_school_rates with_tables].
  set (rows := df_rows df) in *.
  assert (forall q v, (q, v) ∈ leaves (import_rows rows).1 <->
            exists r, last (rows_at q rows) = Some r ∧ v = rate_entry r) as Hleaf.
  { intros q v. rewrite elem_of_leaves, lookup4_import_rates.
    destruct (last (rows_at q rows)) as [r|]; cbn; [|split; [done|by intros (? & ? & _)]].
    split; [intros [= <-]; eauto|]. by intros (r' & [= <-] & ->). }
  assert (forall q r, last (rows_at q rows) = Some r -> r ∈ rows ∧ row_path r = q) as Hlast.
  { intros q r Hr. apply last_Some_elem_of in Hr. unfold rows_at in Hr.
    apply list_elem_of_filter in Hr. tauto. }
  set (f := fun leaf : path * entry =>
              match last (rows_at leaf.1 rows) with
              | Some r => exported rows r
              | None => exported rows gangnam
              end).
  exists (f <$> leaves (import_rows rows).1). split.
  - apply map_result_total. intros [q v] Hin. apply Hleaf in Hin as (r & Hr & ->).
    subst f. cbn [fst]. rewrite Hr. destruct (Hlast _ _ Hr) as [Hin <-].
    destruct (Hsp r Hin). by apply rate_row_of_imported.
  - intros x. rewrite list_elem_of_fmap. split.
    + intros ([q v] & -> & Hin). apply Hleaf in Hin as (r & Hr & ->).
      subst f. cbn [fst]. rewrite Hr. exists r. split; [|done].
      by destruct (Hlast _ _ Hr) as [_ ->].
    + intros (r & Hr & ->). exists (row_path r, rate_entry r). split.
      * subst f. cbn [fst]. by rewrite Hr.
      * apply Hleaf. eauto.
Qed.

(** * Further properties of the code *)

(** ** Data access and removal by position *)

(** X1: What is stored at a path is what [get_node] finds there, levels that
    were missing included; every other path reads as before, and a path
    with nothing stored reads as the default. *)
Theorem get_node_set_node (data : table) (p q : path) (v d : entry) :
  get_node (set_node data p v) p d = v
  ∧ (p ≠ q -> get_node (set_node data p v) q d = get_node data q d)
  ∧ (lookup4 data q = None -> p ≠ q -> get_node (set_node data p v) q d = d)
  ∧ get_node ∅ q d = d.
Proof.
  unfold get_node, set_node. rewrite !lookup4_store4, lookup4_empty.
  rewrite decide_True by done. split; [done|]. split; [|split; [|done]].
  - intros Hne. by rewrite decide_False.
  - intros Hq Hne. by rewrite decide_False, Hq.
Qed.

(** *** Removal by position *)

Lemma omap_ext_seq {A} (f g : nat -> option A) (n : nat) :
  (forall i, (i < n)%nat -> f i = g i) -> omap f (seq 0 n) = omap g (seq 0 n).
Proof.
  intros H. apply list_omap_ext. apply Forall2_same_length_lookup_2; [done|].
  intros i x y Hx Hy. rewrite Hx in Hy. injection Hy as <-.
  apply lookup_seq in Hx as [-> Hi]. by apply H.
Qed.

(** X2: Only the positions that the ledger has count: two index lists with the
    same members among them remove the same entries, whatever their order,
    repetitions or out-of-range members; with no member in range (the empty
    selection too) nothing is removed, with every position a member nothing
    is left, and the entries kept and the positions removed add up to the
    former length. *)
Theorem remove_at_by_membership {A : Type} (idx idx' : list Z) (l : list A) :
  ((forall i, (i < length l)%nat -> (Z.of_nat i ∈ idx <-> Z.of_nat i ∈ idx')) ->
   remove_at idx l = remove_at idx' l)
  ∧ ((forall i, (i < length l)%nat -> Z.of_nat i ∉ idx) -> remove_at idx l = l)
  ∧ ((forall i, (i < length l)%nat -> Z.of_nat i ∈ idx) -> remove_at idx l = [])
  ∧ (length (remove_at idx l)
     + length (filter (fun i => Z.of_nat i ∈ idx) (seq 0 (length l))) = length l)%nat.
Proof.
  rewrite !remove_at_lookup. split; [|split; [|split]].
  - intros H. apply omap_ext_seq. intros i Hi.
    destruct (decide (Z.of_nat i ∈ idx)) as [Hin|Hin].
    + by rewrite decide_True by by apply H.
    + by rewrite decide_False by (intros Hin'; by apply Hin, H).
  - intros H.
    transitivity (omap (fun i => l !! i) (seq 0 (length l))).
    + apply omap_ext_seq. intros i Hi. by rewrite decide_False by by apply H.
    + clear H. induction l as [|x l IH] using rev_ind; [done|].
      rewrite length_app. cbn [length]. rewrite Nat.add_1_r, seq_S, omap_app. cbn.
      rewrite lookup_app_r, Nat.sub_diag by done. cbn. f_equal.
      etrans; [|exact IH]. apply omap_ext_seq. intros i Hi. by rewrite lookup_app_l.
  - intros H.
    transitivity (omap (fun _ : nat => @None A) (seq 0 (length l))).
    + apply omap_ext_seq. intros i Hi. by rewrite decide_True by by apply H.
    + generalize (seq 0 (length l)). intros s. by induction s.
  - assert (forall s : list nat, (forall i, i ∈ s -> (i < length l)%nat) ->
              (length (omap (fun i => if decide (Z.of_nat i ∈ idx) then None else l !! i) s)
               + length (filter (fun i => Z.of_nat i ∈ idx) s) = length s)%nat) as Hs.
    { intros s. induction s as [|i s IH]; intros Hin; [done|].
      rewrite filter_cons. cbn [omap list_omap].
      specialize (IH (fun j Hj => Hin j (list_elem_of_further _ _ _ Hj))).
      destruct (decide (Z.of_nat i ∈ idx)).
      - cbn [length]. lia.
      - destruct (lookup_lt_is_Some_2 l i (Hin i (list_elem_of_here _ _))) as [x ->].
        cbn [length]. lia. }
    rewrite Hs, length_seq; [done|]. intros i Hi. apply elem_of_seq in Hi. lia.
Qed.

(** ** Estimates and imported tables *)

(** What the estimator does on two entries that hold floats. *)
Lemma estimate_float_entries
    (city region housing_type subtype scale : string) (units : Z) (st : session_state)
    (data hd : entry) (er mr p r : float) :
  selected city region housing_type subtype scale ->
  0 < units ->
  lookup4 (rates st) (region, housing_type, subtype, scale) = Some data ->
  data !! "초등" = Some (PFloat er) ->
  data !! "중등" = Some (PFloat mr) ->
  lookup4 (high_school_rates st) (region, housing_type, subtype, scale) = Some hd ->
  hd !! "인원" = Some (PFloat p) ->
  hd !! "발생률" = Some (PFloat r) ->
  match spec_estimate units er mr p r with
  | Ok c =>
      exists shown,
        calculate_student_counts city region housing_type subtype scale units st
        = (with_results st
             (calculated_results st ++
              [mk_result city region housing_type subtype scale units c]),
           Succeeded shown)
  | Raise e =>
      calculate_student_counts city region housing_type subtype scale units st
      = (st, Raised [] e)
  end.
Proof.
  intros Hsel Hu Hd He Hm Hh Hp Hr.
  rewrite calculate_configured; [|done|done|..].
  2: { rewrite (get_node_Some _ _ _ Hd). intros ->. by rewrite lookup_empty in He. }
  2: { rewrite (get_node_Some _ _ _ Hh). intros ->. by rewrite lookup_empty in Hp. }
  rewrite (get_node_Some _ _ _ Hd), (get_node_Some _ _ _ Hh).
  unfold estimate_entries. rewrite He, Hm, Hp, Hr. cbn [from_option id].
  rewrite student_counts_floats.
  destruct (spec_estimate units er mr p r) as [c|e] eqn:E; [|done].
  cbn [mbind result_bind].
  destruct (int_float_Ok p (spec_estimate_headcount_finite _ _ _ _ _ _ E)) as [z Hz].
  unfold h_basis_text, format_number. rewrite Hz.
  cbn [mbind result_bind format_percentage calculation_basis_text]. eauto.
Qed.

(** *** Signs *)

Lemma binary_round_aux_sign (s : bool) (m e : Z) (l : location) :
  match binary_round_aux prec emax s m e l with
  | S754_zero s' | S754_infinity s' | S754_finite s' _ _ => s' = s
  | S754_nan => True
  end.
Proof.
  unfold binary_round_aux.
  destruct (shr_fexp prec emax m e l) as [mrs' e'].
  destruct (shr_fexp prec emax _ e' loc_Exact) as [mrs'' e''].
  destruct (shr_m mrs''); [done| |done]. by destruct (_ <=? _)%Z.
Qed.

Lemma binary_round_aux_not_negative (m e : Z) (l : location) :
  sf_not_negative (binary_round_aux prec emax false m e l).
Proof.
  pose proof (binary_round_aux_sign false m e l) as H.
  destruct (binary_round_aux prec emax false m e l); try done; by subst.
Qed.

Lemma binary_round_not_negative (m : positive) (e : Z) :
  sf_not_negative (binary_round prec emax false m e).
Proof.
  unfold binary_round. destruct (shl_align _ _ _). apply binary_round_aux_not_negative.
Qed.

Lemma binary_normalize_not_negative (z e : Z) :
  0 <= z -> sf_not_negative (binary_normalize prec emax z e false).
Proof.
  destruct z; [done| |lia]. intros _. apply binary_round_not_negative.
Qed.

Lemma SFmul_not_negative (x y : spec_float) :
  sf_not_negative x -> sf_not_negative y -> sf_not_negative (SFmul prec emax x y).
Proof.
  destruct x as [[]|[]| |[] mx ex], y as [[]|[]| |[] my ey]; try done;
    intros _ _; apply binary_round_aux_not_negative.
Qed.

Lemma SFdiv100_not_negative (x : spec_float) :
  sf_not_negative x -> sf_not_negative (SFdiv prec emax x (Prim2SF 100)).
Proof.
  change (Prim2SF 100) with (S754_finite false 7036874417766400 (-46)).
  destruct x as [[]|[]| |[] mx ex]; try done. intros _.
  unfold SFdiv. destruct (SFdiv_core_binary _ _ _ _ _ _) as [[mz ez] lz].
  apply binary_round_aux_not_negative.
Qed.

Lemma mul_not_negative (x y : float) :
  not_negative x -> not_negative y -> not_negative (x * y).
Proof. unfold not_negative. rewrite mul_spec. apply SFmul_not_negative. Qed.

Lemma div100_not_negative (x : float) : not_negative x -> not_negative (x / 100).
Proof. unfold not_negative. rewrite div_spec. apply SFdiv100_not_negative. Qed.

Lemma SF2Prim_not_negative (x : spec_float) :
  sf_not_negative x -> not_negative (SF2Prim x).
Proof.
  unfold not_negative. destruct x as [[]|[]| |[] m e]; try done. intros _.
  unfold SF2Prim. rewrite Z_ldexp_spec, of_uint63_spec.
  match goal with
  | |- context [binary_normalize prec emax ?z 0 false] =>
      pose proof (binary_normalize_not_negative z 0 (proj1 (Uint63.to_Z_bounded _))) as Hn;
      destruct (binary_normalize prec emax z 0 false) as [[]|[]| |[] m' e']; try done
  end.
  cbn [SFldexp]. apply binary_round_not_negative.
Qed.

Lemma float_of_int_not_negative (z : Z) (u : float) :
  0 <= z -> float_of_int z = Ok u -> not_negative u.
Proof.
  intros Hz Hu.
  assert (u = SF2Prim (binary_normalize prec emax z 0 false)) as ->.
  { unfold float_of_int in Hu.
    destruct (binary_normalize prec emax z 0 false); congruence. }
  by apply SF2Prim_not_negative, binary_normalize_not_negative.
Qed.

Lemma rhe_scaled_nonneg (m e : Z) : 0 <= m -> 0 <= rhe_scaled m e.
Proof.
  intros Hm. unfold rhe_scaled. destruct e as [|p|p]; [lia|lia|].
  assert (0 <= m / 2 ^ Z.pos p) by (apply Z.div_pos; lia).
  destruct (_ ?= _)%Z; [destruct (Z.even _)|..]; lia.
Qed.

Lemma round_float_not_negative (x : float) (n : Z) :
  not_negative x -> round_float x = Ok n -> 0 <= n.
Proof.
  unfold not_negative, round_float.
  destruct (Prim2SF x) as [s|s| |[] m e]; try done; intros _ [= <-]; [lia|].
  apply rhe_scaled_nonneg. lia.
Qed.

Lemma spec_estimate_not_negative (units : Z) (er mr p r : float) (c : counts) :
  0 <= units ->
  not_negative er -> not_negative mr -> not_negative p -> not_negative r ->
  spec_estimate units er mr p r = Ok c ->
  0 <= cnt_e c ∧ 0 <= cnt_k c ∧ 0 <= cnt_m c ∧ 0 <= cnt_h c.
Proof.
  intros Hu Her Hmr Hp Hr. unfold spec_estimate.
  destruct (float_of_int units) as [u|] eqn:Eu; [|done]. cbn [mbind result_bind].
  apply float_of_int_not_negative in Eu; [|done].
  destruct (round_float (u * er / 100)) as [e|] eqn:Ee; [|done]. cbn [mbind result_bind].
  apply round_float_not_negative in Ee; [|by apply div100_not_negative, mul_not_negative].
  destruct (float_of_int e) as [fl|] eqn:El; [|done]. cbn [mbind result_bind].
  apply float_of_int_not_negative in El; [|done].
  destruct (round_float (fl * 0.5)) as [k|] eqn:Ek; [|done]. cbn [mbind result_bind].
  apply round_float_not_negative in Ek; [|by apply mul_not_negative].
  destruct (round_float (u * mr / 100)) as [m|] eqn:Em; [|done]. cbn [mbind result_bind].
  apply round_float_not_negative in Em; [|by apply div100_not_negative, mul_not_negative].
  destruct (round_float (u * p * r / 100)) as [h|] eqn:Eh; [|done]. cbn [mbind result_bind].
  apply round_float_not_negative in Eh;
    [|by apply div100_not_negative, mul_not_negative; [apply mul_not_negative|]].
  by intros [= <-].
Qed.

(** X3: With rates, a headcount and an occupancy that are not below zero, none
    of the four figures that the estimator records is below zero. *)
Theorem estimate_counts_not_negative
    (city region housing_type subtype scale : string) (units : Z) (st : session_state)
    (data hd : entry) (er mr p r : float) :
  selected city region housing_type subtype scale ->
  0 < units ->
  lookup4 (rates st) (region, housing_type, subtype, scale) = Some data ->
  data !! "초등" = Some (PFloat er) ->
  data !! "중등" = Some (PFloat mr) ->
  lookup4 (high_school_rates st) (region, housing_type, subtype, scale) = Some hd ->
  hd !! "인원" = Some (PFloat p) ->
  hd !! "발생률" = Some (PFloat r) ->
  not_negative er -> not_negative mr -> not_negative p -> not_negative r ->
  (exists e, calculate_student_counts city region housing_type subtype scale units st
             = (st, Raised [] e))
  ∨ (exists shown row,
       calculate_student_counts city region housing_type subtype scale units st
       = (with_results st (calculated_results st ++ [row]), Succeeded shown)
       ∧ 0 <= res_kindergarten row ∧ 0 <= res_elementary row
       ∧ 0 <= res_middle row ∧ 0 <= res_high row).
Proof.
  intros Hsel Hu Hd He Hm Hh Hp Hr Ner Nmr Np Nr.
  pose proof (estimate_float_entries city region housing_type subtype scale units st
                data hd er mr p r Hsel Hu Hd He Hm Hh Hp Hr) as H.
  destruct (spec_estimate units er mr p r) as [c|e] eqn:E; [right|left; eauto].
  destruct H as [shown H].
  apply spec_estimate_not_negative in E as (H1 & H2 & H3 & H4); [|lia|done..].
  exists shown, (mk_result city region housing_type subtype scale units c). done.
Qed.

Lemma estimate_counts_not_negative_witness :
  selected "서울" "서울 강남구" "아파트" "분양" "84㎡"
  ∧ not_negative 12.5 ∧ not_negative 6 ∧ not_negative 0.8 ∧ not_negative 15
  ∧ ((exists e,
        calculate_student_counts "서울" "서울 강남구" "아파트" "분양" "84㎡" 100 example_session
        = (example_session, Raised [] e))
     ∨ (exists shown row,
          calculate_student_counts "서울" "서울 강남구" "아파트" "분양" "84㎡" 100 example_session
          = (with_results example_session (calculated_results example_session ++ [row]),
             Succeeded shown)
          ∧ 0 <= res_kindergarten row ∧ 0 <= res_elementary row
          ∧ 0 <= res_middle row ∧ 0 <= res_high row)).
Proof.
  assert (selected "서울" "서울 강남구" "아파트" "분양" "84㎡") as Hsel
    by (repeat constructor; done).
  split; [exact Hsel|]. repeat (split; [exact I|]).
  apply (estimate_counts_not_negative "서울" "서울 강남구" "아파트" "분양" "84㎡" 100
           example_session
           {[ "초등" := PFloat 12.5; "중등" := PFloat 6 ]}
           {[ "인원" := PFloat 0.8; "발생률" := PFloat 15 ]}
           12.5 6 0.8 15 Hsel ltac:(lia) eq_refl eq_refl eq_refl eq_refl eq_refl eq_refl
           I I I I).
Defined.

(** *** What an import leaves in the tables *)

(** X4: After a successful import every entry of the rate table has exactly the
    two fields "초등" and "중등", every entry of the high-school table exactly
    "인원" and "발생률", each a float, and every combination of the
    high-school table is one of the rate table too. *)
Theorem import_entries_complete (st : session_state) (df : DataFrame) (q : path) :
  issubset required_cols (columns df) = true ->
  let st' := (process_excel df st).1 in
  (forall d, lookup4 (rates st') q = Some d ->
     dom d = {[ "초등"; "중등" ]}
     ∧ exists e m, d !! "초등" = Some (PFloat e) ∧ d !! "중등" = Some (PFloat m))
  ∧ (forall d, lookup4 (high_school_rates st') q = Some d ->
       dom d = {[ "인원"; "발생률" ]}
       ∧ exists p r, d !! "인원" = Some (PFloat p) ∧ d !! "발생률" = Some (PFloat r))
  ∧ (queryable (high_school_rates st') q -> queryable (rates st') q).
Proof.
  intros H st'. subst st'. rewrite process_excel_accepted by done.
  cbn [fst rates high_school_rates with_tables]. unfold queryable.
  rewrite lookup4_import_rates, lookup4_import_high_school.
  split; [|split].
  - intros d Hd. destruct (last (rows_at q (df_rows df))) as [r|]; [|done].
    injection Hd as <-. split; [|eexists _, _; apply rate_entry_fields].
    unfold rate_entry. by rewrite dom_insert_L, dom_singleton_L.
  - intros d Hd. destruct (last (high_school_rows_at q (df_rows df))) as [r|]; [|done].
    injection Hd as <-. split; [|eexists _, _; apply high_school_entry_fields].
    unfold high_school_entry. by rewrite dom_insert_L, dom_singleton_L.
  - rewrite !fmap_is_Some. unfold rows_at, high_school_rows_at.
    rewrite !last_filter_is_Some. intros (r & Hr & Hq & _). eauto.
Qed.

Lemma import_entries_complete_witness :
  issubset required_cols (columns table_dup) = true
  ∧ (queryable (high_school_rates (process_excel table_dup empty_session).1)
               (row_path gangnam)
     -> queryable (rates (process_excel table_dup empty_session).1) (row_path gangnam))
  ∧ queryable (high_school_rates (process_excel table_dup empty_session).1)
              (row_path gangnam).
Proof.
  split; [reflexivity|]. split.
  - apply (import_entries_complete empty_session table_dup (row_path gangnam) eq_refl).
  - by exists (high_school_entry gangnam).
Defined.

(** X5: An estimate that follows an import reads the rounded rates of the last
    row with the key and the rounded high-school figures of the last row
    with the key that has them, which may be another row; when no row with
    the key has them the call is rejected for the missing high-school
    data. *)
Theorem estimate_after_import (st : session_state) (df : DataFrame) (r : row)
    (city : string) (units : Z) :
  issubset required_cols (columns df) = true ->
  last (rows_at (row_path r) (df_rows df)) = Some r ->
  selected city (full_region r) (row_housing_type r) (row_subtype r) (row_scale r) ->
  0 < units ->
  let st' := (process_excel df st).1 in
  let run :=
    calculate_student_counts city (full_region r) (row_housing_type r) (row_subtype r)
      (row_scale r) units st' in
  match last (high_school_rows_at (row_path r) (df_rows df)) with
  | None => run = (st', Rejected (warning msg_no_high_school))
  | Some r' =>
      match spec_estimate units (round2 (row_elementary r)) (round2 (row_middle r))
              (round2 (row_hs_personnel r')) (round2 (row_hs_rate r')) with
      | Ok c =>
          exists shown,
            run = (with_results st'
                     (calculated_results st ++
                      [mk_result city (full_region r) (row_housing_type r) (row_subtype r)
                         (row_scale r) units c]),
                   Succeeded shown)
      | Raise e => run = (st', Raised [] e)
      end
  end.
Proof.
  intros H Hr Hsel Hu st' run. subst st' run. rewrite process_excel_accepted by done.
  cbn [fst].
  set (st' := with_tables st (import_rows (df_rows df)).1 (import_rows (df_rows df)).2).
  assert (lookup4 (rates st') (row_path r) = Some (rate_entry r)) as Hd.
  { subst st'. cbn [rates with_tables]. by rewrite lookup4_import_rates, Hr. }
  assert (lookup4 (high_school_rates st') (row_path r)
          = high_school_entry <$> last (high_school_rows_at (row_path r) (df_rows df)))
    as Hh.
  { subst st'. cbn [high_school_rates with_tables]. apply lookup4_import_high_school. }
  destruct (last (high_school_rows_at (row_path r) (df_rows df))) as [r'|].
  - destruct (rate_entry_fields r) as [He Hm].
    destruct (high_school_entry_fields r') as [Hp Hq].
    apply (estimate_float_entries city (full_region r) (row_housing_type r)
             (row_subtype r) (row_scale r) units st' _ _ _ _ _ _ Hsel Hu Hd He Hm Hh Hp Hq).
  - apply calculate_no_high_school; [done|done| |].
    + unfold row_path in Hd. rewrite (get_node_Some _ _ _ Hd). apply insert_non_empty.
    + by apply get_node_None.
Qed.

Lemma estimate_after_import_witness :
  issubset required_cols (columns table_dup_blank_last) = true
  ∧ last (rows_at (row_path gangnam_again) (df_rows table_dup_blank_last))
    = Some gangnam_again
  ∧ selected "서울" (full_region gangnam_again) "아파트" "분양" "84㎡"
  ∧ exists shown,
      calculate_student_counts "서울" (full_region gangnam_again) "아파트" "분양" "84㎡" 100
        (process_excel table_dup_blank_last empty_session).1
      = (with_results (process_excel table_dup_blank_last empty_session).1
           [mk_result "서울" (full_region gangnam_again) "아파트" "분양" "84㎡" 100
              {| cnt_e := 10; cnt_k := 5; cnt_m := 5; cnt_h := 12 |}],
         Succeeded shown).
Proof.
  assert (selected "서울" (full_region gangnam_again) "아파트" "분양" "84㎡") as Hsel
    by (repeat constructor; done).
  split; [reflexivity|]. split; [reflexivity|]. split; [exact Hsel|].
  exact (estimate_after_import empty_session table_dup_blank_last gangnam_again "서울" 100
           eq_refl eq_refl Hsel ltac:(lia)).
Defined.

Lemma export_after_import_witness :
  issubset required_cols (columns table_dup) = true
  ∧ (forall r, r ∈ df_rows table_dup ->
       has_space (row_city r) = false ∧ has_space (row_region r) = false)
  ∧ exists out,
      rate_data (process_excel table_dup empty_session).1 = Ok out
      ∧ forall x, x ∈ out <->
          exists r, last (rows_at (row_path r) (df_rows table_dup)) = Some r
                    ∧ x = exported (df_rows table_dup) r.
Proof.
  assert (forall r, r ∈ df_rows table_dup ->
            has_space (row_city r) = false ∧ has_space (row_region r) = false) as Hsp.
  { intros r Hr. cbn in Hr. rewrite !elem_of_cons in Hr.
    destruct Hr as [->|[->|[->|Hr]]]; [done..|]. by apply not_elem_of_nil in Hr. }
  split; [reflexivity|]. split; [exact Hsp|].
  exact (export_after_import empty_session table_dup eq_refl Hsp).
Defined.

(** ** Selection lists *)

(** *** The order of the lists *)

Lemma compare_not_Gt_trans (a b c : string) :
  String.compare a b <> Gt -> String.compare b c <> Gt -> String.compare a c <> Gt.
Proof.
  revert b c. induction a as [|x a IH]; intros [|y b] [|z c]; cbn; try done.
  unfold Ascii.compare.
  destruct (N.compare_spec (N_of_ascii x) (N_of_ascii y)) as [Exy|Lxy|Gxy]; [| |done].
  - rewrite Exy.
    destruct (N.compare_spec (N_of_ascii y) (N_of_ascii z)); [|done..]. apply IH.
  - destruct (N.compare_spec (N_of_ascii y) (N_of_ascii z)) as [Eyz|Lyz|Gyz]; [| |done].
    + intros _ _. rewrite <-Eyz. by rewrite (proj2 (N.compare_lt_iff _ _) Lxy).
    + intros _ _. by rewrite (proj2 (N.compare_lt_iff _ _) (N.lt_trans _ _ _ Lxy Lyz)).
Qed.

Lemma str_le_not_Gt (a b : string) : str_le a b <-> String.compare a b <> Gt.
Proof. unfold str_le, String.leb. by destruct (String.compare a b). Qed.

Global Instance str_le_trans : Transitive str_le.
Proof. intros a b c. rewrite !str_le_not_Gt. apply compare_not_Gt_trans. Qed.

Global Instance str_le_total : Total str_le.
Proof. intros a b. apply String.leb_total. Qed.

Global Instance str_le_antisymm : AntiSymm (=) str_le.
Proof. intros a b. apply String.leb_antisym. Qed.

Lemma elem_of_sorted (x : string) (l : list string) : x ∈ sorted l <-> x ∈ l.
Proof. unfold sorted. by rewrite merge_sort_Permutation. Qed.

Lemma sorted_ascending (l : list string) :
  NoDup l -> StronglySorted str_le (sorted l) ∧ NoDup (sorted l).
Proof.
  intros H. split; [apply StronglySorted_merge_sort; apply _|].
  unfold sorted. by rewrite merge_sort_Permutation.
Qed.

Lemma elem_of_keys {V} (d : gmap string V) (k : string) : k ∈ keys d <-> is_Some (d !! k).
Proof.
  unfold keys. rewrite list_elem_of_fmap. split.
  - intros ([k' v] & -> & H). apply elem_of_map_to_list in H. by exists v.
  - intros [v H]. exists (k, v). split; [done|]. by apply elem_of_map_to_list.
Qed.

Lemma NoDup_keys {V} (d : gmap string V) : NoDup (keys d).
Proof. apply NoDup_fst_map_to_list. Qed.

(** *** The first field of a key *)

Lemma split_space_cons (s : string) : exists w ws, split_space s = w :: ws.
Proof.
  induction s as [|c s (w & ws & IH)]; [by eexists _, _|].
  cbn [split_space]. rewrite IH. destruct (is_space c); by eexists _, _.
Qed.

Lemma first_field_String (c : ascii) (s : string) :
  first_field (String c s) = if is_space c then "" else String c (first_field s).
Proof.
  unfold first_field. cbn [split_space].
  destruct (split_space_cons s) as (w & ws & ->). by destruct (is_space c).
Qed.

Lemma first_field_app (a b : string) : first_field (a +:+ " " +:+ b) = first_field a.
Proof.
  induction a as [|c a IH]; [done|].
  change (String c a +:+ " " +:+ b) with (String c (a +:+ " " +:+ b)).
  by rewrite !first_field_String, IH.
Qed.

Lemma first_field_no_space (a : string) : has_space a = false -> first_field a = a.
Proof. intros H. unfold first_field. by rewrite split_space_no_space. Qed.

Lemma first_field_prefix (r : string) : startswith r (first_field r) = true.
Proof.
  unfold startswith. induction r as [|c r IH]; [done|].
  rewrite first_field_String. destruct (is_space c); [done|].
  cbn [String.prefix]. by destruct (ascii_dec c c).
Qed.

Lemma prefix_trans (a b c : string) :
  String.prefix a b = true -> String.prefix b c = true -> String.prefix a c = true.
Proof.
  revert b c. induction a as [|x a IH]; intros b c; [by destruct c|].
  destruct b as [|y b]; [by cbn|]. destruct c as [|z c]; [by cbn|]. cbn [String.prefix].
  destruct (ascii_dec x y) as [->|]; [|done].
  destruct (ascii_dec y z) as [->|]; [|done].
  destruct (ascii_dec z z); [|done]. apply IH.
Qed.

(** *** Membership *)

Lemma elem_of_get_cities (st : session_state) (c : string) :
  c ∈ get_cities st <-> exists region, is_Some (rates st !! region) ∧ c = first_field region.
Proof.
  unfold get_cities. rewrite elem_of_sorted, elem_of_remove_dups, list_elem_of_fmap.
  setoid_rewrite elem_of_keys. split; intros (r & H1 & H2); eauto.
Qed.

Lemma elem_of_get_regions (st : session_state) (city r : string) :
  r ∈ get_regions st city <-> is_Some (rates st !! r) ∧ startswith r city = true.
Proof.
  unfold get_regions. rewrite elem_of_sorted, list_elem_of_filter, elem_of_keys. tauto.
Qed.

Lemma elem_of_get_scales (st : session_state) (region t s sc : string) :
  sc ∈ get_scales st region t s <-> queryable (rates st) (region, t, s, sc).
Proof.
  unfold get_scales, queryable, lookup4. rewrite elem_of_sorted, elem_of_keys.
  destruct (rates st !! region) as [types|]; cbn; [|by rewrite lookup_empty].
  destruct (types !! t) as [subtypes|]; cbn; [|by rewrite lookup_empty].
  destruct (subtypes !! s) as [scales|]; cbn; [done|by rewrite lookup_empty].
Qed.

Lemma elem_of_get_subtypes (st : session_state) (region t s : string) :
  s ∈ get_subtypes st region t
  <-> exists types subtypes, rates st !! region = Some types ∧ types !! t = Some subtypes
                             ∧ is_Some (subtypes !! s).
Proof.
  unfold get_subtypes. rewrite elem_of_sorted, elem_of_keys.
  destruct (rates st !! region) as [types|]; cbn.
  2: { rewrite lookup_empty. split; [by intros []|]. by intros (? & ? & ? & _). }
  destruct (types !! t) as [subtypes|] eqn:E; cbn.
  2: { rewrite lookup_empty. split; [by intros []|].
       intros (? & ? & ? & ? & _). congruence. }
  split; [by eexists _, _|]. intros (? & ? & ? & ? & ?). congruence.
Qed.

Lemma elem_of_get_types (st : session_state) (region t : string) :
  t ∈ get_types st region
  <-> exists types, rates st !! region = Some types ∧ is_Some (types !! t).
Proof.
  unfold get_types. rewrite elem_of_sorted, elem_of_keys.
  destruct (rates st !! region) as [types|]; cbn.
  2: { rewrite lookup_empty. split; [by intros []|]. by intros (? & ? & _). }
  split; [by eexists|]. intros (? & ? & ?). congruence.
Qed.

(** X7: Each of the five selection lists is in ascending order and names
    nothing twice. *)
Theorem selection_lists_ascending (st : session_state)
    (city region housing_type subtype : string) :
  Forall (fun l => StronglySorted str_le l ∧ NoDup l)
    [get_cities st; get_regions st city; get_types st region;
     get_subtypes st region housing_type; get_scales st region housing_type subtype].
Proof.
  repeat apply Forall_cons_2; [..|apply Forall_nil_2]; apply sorted_ascending.
  - apply NoDup_remove_dups.
  - apply NoDup_filter, NoDup_keys.
  - apply NoDup_keys.
  - apply NoDup_keys.
  - apply NoDup_keys.
Qed.

(** X8: A combination has a rate entry exactly when it can be reached through
    the five lists, starting from the first field of its region key; and
    whatever city the region list was asked for, a scale that is offered
    for a region, type and subtype has a rate entry. *)
Theorem configured_iff_offered (st : session_state) (region housing_type subtype scale : string) :
  (queryable (rates st) (region, housing_type, subtype, scale)
   <-> first_field region ∈ get_cities st
       ∧ region ∈ get_regions st (first_field region)
       ∧ housing_type ∈ get_types st region
       ∧ subtype ∈ get_subtypes st region housing_type
       ∧ scale ∈ get_scales st region housing_type subtype)
  ∧ (scale ∈ get_scales st region housing_type subtype
     <-> queryable (rates st) (region, housing_type, subtype, scale)).
Proof.
  split; [|apply elem_of_get_scales]. split.
  - intros Hq. pose proof Hq as [d Hd]. unfold lookup4 in Hd.
    destruct (rates st !! region) as [types|] eqn:E1; [|done]. cbn in Hd.
    destruct (types !! housing_type) as [subtypes|] eqn:E2; [|done]. cbn in Hd.
    destruct (subtypes !! subtype) as [scales|] eqn:E3; [|done]. cbn in Hd.
    split; [|split; [|split; [|split]]].
    + apply elem_of_get_cities. exists region. by rewrite E1.
    + apply elem_of_get_regions. rewrite E1. split; [done|apply first_field_prefix].
    + apply elem_of_get_types. exists types. by rewrite E2.
    + apply elem_of_get_subtypes. exists types, subtypes. by rewrite E3.
    + by apply elem_of_get_scales.
  - intros (_ & _ & _ & _ & H). by apply elem_of_get_scales.
Qed.

(** X9: The region list of a city also holds the regions of every city whose
    name begins with the name of the chosen one. *)
Theorem get_regions_of_longer_names (st : session_state) (city region : string) :
  is_Some (rates st !! region) ->
  startswith (first_field region) city = true ->
  region ∈ get_regions st city.
Proof.
  intros Hr Hp. apply elem_of_get_regions. split; [done|].
  unfold startswith in *. eapply prefix_trans; [exact Hp|apply first_field_prefix].
Qed.

Lemma get_regions_of_longer_names_witness :
  is_Some (rates prefix_session !! "광주시 오포읍")
  ∧ startswith (first_field "광주시 오포읍") "광주" = true
  ∧ first_field "광주시 오포읍" = "광주시"
  ∧ "광주시 오포읍" ∈ get_regions prefix_session "광주".
Proof.
  assert (is_Some (rates prefix_session !! "광주시 오포읍")) as H.
  { apply (proj1 (elem_of_keys _ _)). apply (bool_decide_unpack _). vm_compute. exact I. }
  split; [exact H|]. split; [reflexivity|]. split; [reflexivity|].
  exact (get_regions_of_longer_names prefix_session "광주" "광주시 오포읍" H eq_refl).
Defined.

(** *** The lists after an import *)

Lemma store4_top (t : table) (p : path) (v : entry) (region : string) :
  is_Some (store4 t p v !! region) <-> region = p.1.1.1 ∨ is_Some (t !! region).
Proof.
  destruct p as [[[a b] c] d]. unfold store4. cbn [fst].
  destruct (decide (a = region)) as [->|Hne].
  - rewrite lookup_insert_eq. split; [by left|by eexists].
  - rewrite lookup_insert_ne by done. split; [by right|]. by intros [->|].
Qed.

Lemma import_rows_top (l : list row) (region : string) :
  is_Some ((import_rows l).1 !! region) <-> exists r, r ∈ l ∧ region = full_region r.
Proof.
  induction l as [|r l IH] using rev_ind.
  - unfold import_rows. cbn. rewrite lookup_empty. split; [by intros []|].
    intros (r & Hr & _). by apply not_elem_of_nil in Hr.
  - rewrite import_rows_snoc. unfold import_row. cbn [fst snd].
    rewrite store4_top, IH. unfold row_path. cbn [fst]. split.
    + intros [->|(r' & Hr' & ->)]; [exists r|exists r'];
        (split; [|done]); apply elem_of_app; [right; by left|by left].
    + intros (r' & Hr' & ->). apply elem_of_app in Hr' as [Hr'|Hr'%list_elem_of_singleton].
      * right. by exists r'.
      * left. by subst.
Qed.

(** X10: After a successful import the city list names the first word of the
    city cell of every row and nothing else, and the scale list of a
    region, type and subtype names the scales of the rows with that region,
    type and subtype and nothing else. *)
Theorem selection_lists_after_import (st : session_state) (df : DataFrame) :
  issubset required_cols (columns df) = true ->
  let st' := (process_excel df st).1 in
  (forall c, c ∈ get_cities st'
             <-> exists r, r ∈ df_rows df ∧ c = first_field (row_city r))
  ∧ (forall r, r ∈ df_rows df -> has_space (row_city r) = false ->
       row_city r ∈ get_cities st')
  ∧ (forall region t s sc,
       sc ∈ get_scales st' region t s
       <-> exists r, r ∈ df_rows df ∧ row_path r = (region, t, s, sc)).
Proof.
  intros H st'. subst st'. rewrite process_excel_accepted by done. cbn [fst].
  assert (forall c, c ∈ get_cities
                      (with_tables st (import_rows (df_rows df)).1 (import_rows (df_rows df)).2)
             <-> exists r, r ∈ df_rows df ∧ c = first_field (row_city r)) as Hc.
  { intros c. rewrite elem_of_get_cities. cbn [rates with_tables].
    setoid_rewrite import_rows_top. split.
    - intros (region & (r & Hr & ->) & ->). exists r. split; [done|].
      unfold full_region. apply first_field_app.
    - intros (r & Hr & ->). exists (full_region r). split; [by exists r|].
      unfold full_region. symmetry. apply first_field_app. }
  split; [exact Hc|]. split.
  - intros r Hr Hs. apply Hc. exists r. split; [done|].
    symmetry. by apply first_field_no_space.
  - intros region t s sc. rewrite elem_of_get_scales. unfold queryable.
    cbn [rates with_tables]. rewrite lookup4_import_rates, fmap_is_Some.
    unfold rows_at. by rewrite last_filter_is_Some.
Qed.

Lemma selection_lists_after_import_witness :
  issubset required_cols (columns table_prefix) = true
  ∧ "광주시" ∈ get_cities (process_excel table_prefix empty_session).1
  ∧ "59㎡" ∈ get_scales (process_excel table_prefix empty_session).1
              "광주시 오포읍" "아파트" "임대".
Proof.
  pose proof (selection_lists_after_import empty_session table_prefix eq_refl)
    as (Hc & _ & Hs).
  split; [reflexivity|]. split.
  - apply Hc. exists gwangju_si. split; [|reflexivity]. right. left.
  - apply Hs. exists gwangju_si. split; [|reflexivity]. right. left.
Defined.

(** ** Labels of the ledger rows *)

Lemma digit_value_pretty_N_char (d : N) :
  (d < 10)%N -> digit_value (pretty_N_char d) = Some (Z.of_N d).
Proof.
  intros H.
  assert (d = 0 ∨ d = 1 ∨ d = 2 ∨ d = 3 ∨ d = 4 ∨ d = 5 ∨ d = 6 ∨ d = 7 ∨ d = 8 ∨ d = 9)%N
    as Hd by lia.
  repeat (destruct Hd as [->|Hd]; [reflexivity|]). by subst.
Qed.

Lemma parse_digits_app (a b : string) (acc : Z) :
  parse_digits acc (a +:+ b) = x ← parse_digits acc a; parse_digits x b.
Proof.
  revert acc. induction a as [|c a IH]; intros acc; [done|].
  change (String c a +:+ b) with (String c (a +:+ b)). cbn [parse_digits].
  destruct (digit_value c) as [d|]; [|done]. cbn. apply IH.
Qed.

Lemma pretty_N_go_app (x : N) (s : string) : pretty_N_go x s = pretty_N_go x "" +:+ s.
Proof.
  revert s. induction (N.lt_wf_0 x) as [x _ IH]; intros s.
  assert (x = 0 ∨ 0 < x)%N as [->|Hx] by lia; [by rewrite !pretty_N_go_0|].
  rewrite !(pretty_N_go_step x) by done.
  assert (x `div` 10 < x)%N as Hlt by (by apply N.div_lt).
  rewrite (IH _ Hlt (String _ s)), (IH _ Hlt (String _ "")).
  generalize (pretty_N_char (x `mod` 10)), (pretty_N_go (x `div` 10) ""). intros d p.
  induction p as [|c p IHp]; [done|].
  change (String c (p +:+ String d s) = String c ((p +:+ String d "") +:+ s)).
  by f_equal.
Qed.

Lemma parse_pretty_N_go (x : N) : parse_digits 0 (pretty_N_go x "") = Some (Z.of_N x).
Proof.
  induction (N.lt_wf_0 x) as [x _ IH].
  assert (x = 0 ∨ 0 < x)%N as [->|Hx] by lia; [by rewrite pretty_N_go_0|].
  rewrite pretty_N_go_step, pretty_N_go_app, parse_digits_app by done.
  rewrite IH by (by apply N.div_lt). cbn [mbind option_bind parse_digits].
  rewrite digit_value_pretty_N_char by (by apply N.mod_lt). cbn.
  f_equal. rewrite (N.div_mod x 10) at 3 by done. lia.
Qed.

Lemma parse_pretty (z : Z) : 0 <= z -> pretty z <> "" ∧ parse_digits 0 (pretty z) = Some z.
Proof.
  intros Hz. destruct z as [|p|p]; [done| |lia].
  change (pretty (Z.pos p)) with (pretty_N_go (N.pos p) "").
  pose proof (parse_pretty_N_go (N.pos p)) as H. split; [|exact H].
  intros E. rewrite E in H. discriminate H.
Qed.

Lemma parse_digits_digits (s : string) (acc z : Z) :
  parse_digits acc s = Some z -> Forall is_digit (list_ascii_of_string s).
Proof.
  revert acc. induction s as [|c s IH]; intros acc H; [constructor|].
  cbn in H. destruct (digit_value c) as [d|] eqn:E; [|done].
  constructor; [by exists d|]. by eapply IH.
Qed.

Lemma is_digit_no_comma (c : ascii) : is_digit c -> no_comma c ∧ is_space c = false.
Proof.
  intros [d H]. split.
  - intros ->. discriminate H.
  - unfold is_space. apply bool_decide_eq_false. intros ->. discriminate H.
Qed.

Lemma filter_commas (l : list ascii) : filter no_comma (commas l) = filter no_comma l.
Proof.
  remember (length l) as n eqn:Hn. revert l Hn.
  induction (lt_wf n) as [n _ IH]; intros l Hn.
  destruct l as [|a [|b [|c rest]]]; [done..|].
  cbn [commas]. destruct rest as [|d rest]; [done|].
  change (a :: b :: c :: ","%char :: commas (d :: rest))
    with ([a; b; c] ++ [","%char] ++ commas (d :: rest)).
  change (a :: b :: c :: d :: rest) with ([a; b; c] ++ d :: rest).
  rewrite !filter_app.
  rewrite (IH (length (d :: rest)) ltac:(subst; cbn; lia) (d :: rest) eq_refl).
  by assert (filter no_comma [","%char] = []) as -> by reflexivity.
Qed.

Lemma remove_commas_filter (s : string) :
  remove_commas s = string_of_list_ascii (filter no_comma (list_ascii_of_string s)).
Proof.
  induction s as [|c s IH]; [done|]. cbn [remove_commas list_ascii_of_string].
  rewrite filter_cons.
  destruct (decide (c = ","%char)) as [->|Hc].
  - rewrite bool_decide_eq_true_2 by done.
    rewrite decide_False by (intros H; by apply H). exact IH.
  - rewrite bool_decide_eq_false_2 by done. rewrite decide_True by done.
    cbn. by rewrite IH.
Qed.

Lemma filter_digits (l : list ascii) : Forall is_digit l -> filter no_comma l = l.
Proof.
  induction 1 as [|c l Hc _ IH]; [done|].
  rewrite filter_cons, decide_True by (by apply is_digit_no_comma). by rewrite IH.
Qed.

Lemma format_int_nonneg (z : Z) :
  0 <= z ->
  format_int z
  = string_of_list_ascii (reverse (commas (reverse (list_ascii_of_string (pretty z))))).
Proof.
  intros Hz. unfold format_int.
  rewrite (proj2 (Z.ltb_ge _ _)) by done. by rewrite Z.abs_eq.
Qed.

(** The text of a number that is not negative reads back as the number
    once the commas are taken out. *)
Lemma format_int_read_back (z : Z) :
  0 <= z ->
  remove_commas (format_int z) = pretty z
  ∧ int_of_digits (remove_commas (format_int z)) = Ok z.
Proof.
  intros Hz. destruct (parse_pretty z Hz) as [Hne Hp].
  assert (remove_commas (format_int z) = pretty z) as E.
  { rewrite format_int_nonneg, remove_commas_filter by done.
    rewrite list_ascii_of_string_of_list_ascii, filter_reverse, filter_commas.
    rewrite filter_reverse, reverse_involutive.
    rewrite filter_digits by (by eapply parse_digits_digits).
    apply string_of_list_ascii_of_string. }
  split; [exact E|]. rewrite E. unfold int_of_digits. rewrite Hp.
  by destruct (pretty z).
Qed.

Lemma format_int_chars (z : Z) (c : ascii) :
  0 <= z -> c ∈ list_ascii_of_string (format_int z) -> is_space c = false.
Proof.
  intros Hz. rewrite format_int_nonneg, list_ascii_of_string_of_list_ascii by done.
  rewrite elem_of_reverse. intros Hc.
  destruct (decide (c = ","%char)) as [->|Hne]; [done|].
  assert (c ∈ filter no_comma (commas (reverse (list_ascii_of_string (pretty z))))) as H
    by (by apply list_elem_of_filter).
  rewrite filter_commas in H. apply list_elem_of_filter in H as [_ H].
  rewrite elem_of_reverse in H. destruct (parse_pretty z Hz) as [_ Hp].
  apply parse_digits_digits in Hp. rewrite Forall_forall in Hp.
  exact (proj2 (is_digit_no_comma c (Hp c H))).
Qed.

Lemma first_word_app (w rest : string) :
  w <> "" -> (forall c, c ∈ list_ascii_of_string w -> is_space c = false) ->
  first_word (w +:+ String " " rest) = w.
Proof.
  intros Hne Hw. unfold first_word.
  assert (skip_blanks (w +:+ String " " rest) = w +:+ String " " rest) as ->.
  { destruct w as [|c w]; [done|].
    change (skip_blanks (String c w +:+ String " " rest))
      with (if is_space c then skip_blanks (w +:+ String " " rest)
            else String c w +:+ String " " rest).
    rewrite Hw; [done|]. left. }
  clear Hne. induction w as [|c w IH]; [done|].
  change (take_word (String c w +:+ String " " rest))
    with (if is_space c then "" else String c (take_word (w +:+ String " " rest))).
  rewrite Hw by left. rewrite IH; [done|].
  intros c' Hc'. apply Hw. by right.
Qed.

Lemma original_index_option_label (i : nat) :
  original_index (option_label i) = Ok (Z.of_nat i).
Proof.
  unfold original_index, option_label.
  destruct (format_int_read_back (Z.of_nat i + 1)) as [E Hp]; [lia|].
  assert (format_int (Z.of_nat i + 1) <> "") as Hne.
  { intros E'. rewrite E' in Hp. discriminate Hp. }
  change " 번째 줄" with (String " " "번째 줄").
  rewrite first_word_app by (done || (intros c; apply format_int_chars; lia)).
  set (w := format_int (Z.of_nat i + 1)) in *. destruct w as [|a w]; [done|].
  rewrite Hp. cbn. f_equal. lia.
Qed.

Lemma options_labels {A} (results : list A) :
  options results = option_label <$> seq 0 (length results).
Proof. unfold options. apply imap_seq_0. Qed.

Lemma map_result_fmap {A B C} (f : B -> result C) (g : A -> B) (h : A -> C) (l : list A) :
  (forall x, f (g x) = Ok (h x)) -> map_result f (g <$> l) = Ok (h <$> l).
Proof.
  intros H. induction l as [|x l IH]; [done|]. cbn. by rewrite H, IH.
Qed.

(** X11: Every label of the multiselect reads back as the position of its row,
    so no two rows share a label. *)
Theorem options_read_back {A : Type} (results : list A) :
  map_result original_index (options results) = Ok (Z.of_nat <$> seq 0 (length results))
  ∧ NoDup (options results)
  ∧ (forall (i : nat) (label : string),
       options results !! i = Some label -> original_index label = Ok (Z.of_nat i)).
Proof.
  rewrite options_labels. split; [|split].
  - apply map_result_fmap, original_index_option_label.
  - apply NoDup_fmap_2_strong; [|apply NoDup_seq].
    intros i j _ _ E. pose proof (original_index_option_label i) as Hi.
    rewrite E, original_index_option_label in Hi. injection Hi. lia.
  - intros i label H. apply list_lookup_fmap_Some in H as (j & -> & Hj).
    apply lookup_seq in Hj as [-> _]. apply original_index_option_label.
Qed.

(** X12: Deleting by labels: with the labels of the rows at the positions
    [picked] selected, in any order and however often, the handler never
    fails and leaves the ledger without exactly those rows. *)
Theorem delete_selected_labels (picked : list nat) (st : session_state) :
  delete_selected (option_label <$> picked) st
  = (with_results st
       (omap (fun i => if decide (i ∈ picked) then None else calculated_results st !! i)
             (seq 0 (length (calculated_results st)))),
     Succeeded [success msg_deleted]).
Proof.
  unfold delete_selected.
  rewrite (map_result_fmap _ _ Z.of_nat) by apply original_index_option_label.
  rewrite remove_at_lookup. do 2 f_equal.
  apply list_omap_ext, Forall2_same_length_lookup_2; [done|].
  intros i x y Hx Hy. assert (x = y) as <- by congruence.
  destruct (decide (x ∈ picked)) as [Hin|Hin].
  - rewrite decide_True; [done|]. apply list_elem_of_fmap. by exists x.
  - rewrite decide_False; [done|]. intros (j & Hj & ?)%list_elem_of_fmap.
    assert (x = j) as -> by lia. done.
Qed.

(** ** The basis line of the high-school figure *)

Lemma digits2_pos_bound (m : positive) : Zpos m < 2 ^ Zpos (digits2_pos m).
Proof.
  induction m as [m IH|m IH|]; cbn [digits2_pos]; [| |done];
    rewrite Pos2Z.inj_succ, Z.pow_succ_r by lia; lia.
Qed.

Lemma int_below_one (p : float) :
  (0 <=? p)%float = true -> (p <? 1)%float = true -> int (PFloat p) = Ok 0.
Proof.
  rewrite leb_spec, ltb_spec. intros H0 H1.
  change (Prim2SF 0) with (S754_zero false) in H0.
  change (Prim2SF 1) with (S754_finite false 4503599627370496 (-52)) in H1.
  pose proof (Prim2SF_valid p) as Hv. unfold int.
  destruct (Prim2SF p) as [s|s| |s m e]; [done|by destruct s|done|].
  destruct s; [done|]. cbn [cond_Zopp]. f_equal.
  unfold SFltb, SFcompare in H1. cbn [valid_binary] in Hv.
  unfold bounded, canonical_mantissa, fexp in Hv.
  apply andb_prop in Hv as [Hc _]. apply Z.eqb_eq in Hc.
  pose proof (digits2_pos_bound m) as Hm.
  assert (Zpos m < 2 ^ (- e) ∧ e < 0) as [Hlt He].
  { destruct (Z.compare_spec e (-52)) as [->|Hlt|Hgt]; [| |done].
    - split; [|lia]. change (2 ^ (- -52)) with 4503599627370496.
      by destruct (Pos.compare_cont Eq m 4503599627370496) eqn:Ec.
    - split; [|lia].
      assert (Zpos (digits2_pos m) <= 53) as Hd by (unfold prec, emin, emax in Hc; lia).
      eapply Z.lt_le_trans; [exact Hm|]. apply Z.pow_le_mono_r; lia. }
  unfold trunc_scaled. destruct e as [|e|e]; [lia..|].
  apply Z.div_small. change (- Z.neg e) with (Z.pos e) in Hlt. lia.
Qed.

(** X13: A headcount per household from zero up to, but not reaching, one is
    written as 0 in the basis line of the high-school figure, whatever
    went into the figure itself. *)
Theorem h_basis_headcount_below_one (p r : float) :
  (0 <=? p)%float = true -> (p <? 1)%float = true ->
  h_basis_text (PFloat p) (PFloat r) = Ok ("세대수 X 0명 X " +:+ fixed2 r +:+ "%").
Proof.
  intros H0 H1. unfold h_basis_text, format_number.
  by rewrite (int_below_one p H0 H1).
Qed.

Lemma h_basis_headcount_below_one_witness :
  (0 <=? 0.8)%float = true ∧ (0.8 <? 1)%float = true
  ∧ h_basis_text (PFloat 0.8) (PFloat 15) = Ok "세대수 X 0명 X 15.00%".
Proof.
  split; [reflexivity|]. split; [reflexivity|].
  exact (h_basis_headcount_below_one 0.8 15 eq_refl eq_refl).
Defined.

(** ** How many combinations an import stores *)

Lemma NoDup_bind_map {V B} (key : B -> string) (m : gmap string V)
    (f : string * V -> list B) :
  (forall kv y, y ∈ f kv -> key y = kv.1) ->
  (forall kv, NoDup (f kv)) ->
  NoDup (map_to_list m ≫= f).
Proof.
  intros Hkey Hf. apply NoDup_bind; [|by intros|apply NoDup_map_to_list].
  intros [k1 v1] [k2 v2] y H1 H2 Hy1 Hy2.
  apply Hkey in Hy1, Hy2. cbn [fst] in *. subst k1 k2.
  apply elem_of_map_to_list in H1, H2. congruence.
Qed.

Lemma leaves_alt (t : table) :
  leaves t
  = map_to_list t ≫= fun a =>
      map_to_list a.2 ≫= fun b =>
        map_to_list b.2 ≫= fun c =>
          map_to_list c.2 ≫= fun d => [((a.1, b.1, c.1, d.1), d.2)].
Proof.
  unfold leaves. apply list_bind_ext; [|done]. intros [r types]. cbn [fst snd].
  apply list_bind_ext; [|done]. intros [h subtypes]. cbn [fst snd].
  apply list_bind_ext; [|done]. intros [s scales]. cbn [fst snd].
  apply list_bind_ext; [|done]. by intros [sc v].
Qed.

Lemma NoDup_leaves (t : table) : NoDup (leaves t).
Proof.
  rewrite leaves_alt.
  apply (NoDup_bind_map (fun y : path * entry => y.1.1.1.1)).
  { intros a y Hy.
    apply list_elem_of_bind in Hy as (? & Hy & _).
    apply list_elem_of_bind in Hy as (? & Hy & _).
    apply list_elem_of_bind in Hy as (? & Hy & _).
    by apply list_elem_of_singleton in Hy as ->. }
  intros a. apply (NoDup_bind_map (fun y : path * entry => y.1.1.1.2)).
  { intros b y Hy.
    apply list_elem_of_bind in Hy as (? & Hy & _).
    apply list_elem_of_bind in Hy as (? & Hy & _).
    by apply list_elem_of_singleton in Hy as ->. }
  intros b. apply (NoDup_bind_map (fun y : path * entry => y.1.1.2)).
  { intros c y Hy.
    apply list_elem_of_bind in Hy as (? & Hy & _).
    by apply list_elem_of_singleton in Hy as ->. }
  intros c. apply (NoDup_bind_map (fun y : path * entry => y.1.2)).
  { intros d y Hy. by apply list_elem_of_singleton in Hy as ->. }
  intros d. apply NoDup_singleton.
Qed.

Lemma NoDup_leaves_paths (t : table) : NoDup (leaves t).*1.
Proof.
  apply NoDup_fmap_2_strong; [|apply NoDup_leaves].
  intros [q v] [q' v'] H H' E. cbn in E. subst q'.
  apply elem_of_leaves in H, H'. congruence.
Qed.

Lemma length_remove_dups `{EqDecision A} (l : list A) :
  (length (remove_dups l) <= length l)%nat
  ∧ (length (remove_dups l) = length l <-> NoDup l).
Proof.
  induction l as [|x l [IH1 IH2]]; [split; [done|]; split; [constructor|done]|].
  cbn [remove_dups length]. rewrite NoDup_cons.
  destruct (decide_rel elem_of x l) as [Hin|Hin]; cbn [length].
  - split; [lia|]. split; [lia|]. by intros [? _].
  - split; [lia|]. rewrite <- IH2. split; [intros ?; split; [done|lia]|intros [_ ?]; lia].
Qed.

Lemma map_result_length {A B} (f : A -> result B) (l : list A) (out : list B) :
  map_result f l = Ok out -> length out = length l.
Proof.
  revert out. induction l as [|x l IH]; intros out H; [by injection H as <-|].
  cbn [map_result] in H. destruct (f x) as [y|]; [|done]. cbn in H.
  destruct (map_result f l) as [ys|]; [|done]. cbn in H. injection H as <-.
  cbn. f_equal. by apply IH.
Qed.

(** X14: A successful import reports the number of rows of the sheet.  The
    tables then hold one combination for each distinct key of the sheet, and
    an export has that many rows; this is the reported number exactly when no
    key is repeated in the sheet. *)
Theorem import_reports_rows_not_combinations (st : session_state) (df : DataFrame) :
  issubset required_cols (columns df) = true ->
  let st' := (process_excel df st).1 in
  let stored := length (leaves (rates st')) in
  (process_excel df st).2 = Succeeded [success (msg_imported (length (df_rows df)))]
  ∧ stored = length (remove_dups (row_path <$> df_rows df))
  ∧ (stored <= length (df_rows df))%nat
  ∧ (stored = length (df_rows df) <-> NoDup (row_path <$> df_rows df))
  ∧ (forall out, rate_data st' = Ok out -> length out = stored).
Proof.
  intros H st' stored. subst st' stored. rewrite process_excel_accepted by done.
  cbn [fst snd rates with_tables].
  assert (length (leaves (import_rows (df_rows df)).1)
          = length (remove_dups (row_path <$> df_rows df))) as E.
  { rewrite <- (length_fmap fst). apply Permutation_length.
    apply NoDup_Permutation; [apply NoDup_leaves_paths|apply NoDup_remove_dups|].
    intros q. rewrite elem_of_remove_dups, !list_elem_of_fmap. split.
    - intros ([q' v] & -> & Hv). apply elem_of_leaves in Hv.
      rewrite lookup4_import_rates in Hv.
      assert (is_Some (last (rows_at q' (df_rows df)))) as Hs
        by (by destruct (last (rows_at q' (df_rows df))); [eexists|]).
      apply last_filter_is_Some in Hs as (r & Hr & Hq). by exists r.
    - intros (r & -> & Hr).
      assert (is_Some (last (rows_at (row_path r) (df_rows df)))) as [r' Hr']
        by (apply last_filter_is_Some; by exists r).
      exists (row_path r, rate_entry r'). split; [done|].
      apply elem_of_leaves. by rewrite lookup4_import_rates, Hr'. }
  pose proof (length_remove_dups (row_path <$> df_rows df)) as [Hle Hiff].
  rewrite length_fmap in Hle, Hiff.
  split; [done|]. split; [exact E|]. rewrite E. split; [exact Hle|]. split; [exact Hiff|].
  intros out Hout. unfold rate_data in Hout. cbn [rates high_school_rates with_tables] in Hout.
  apply map_result_length in Hout. by rewrite Hout, E.
Qed.

Lemma import_reports_rows_not_combinations_witness :
  issubset required_cols (columns table_dup) = true
  ∧ (process_excel table_dup empty_session).2
    = Succeeded [success (msg_imported (length (df_rows table_dup)))]
  ∧ length (leaves (rates (process_excel table_dup empty_session).1))
    = length (remove_dups (row_path <$> df_rows table_dup)).
Proof.
  pose proof (import_reports_rows_not_combinations empty_session table_dup eq_refl)
    as (H1 & H2 & _).
  split; [reflexivity|]. split; [exact H1|exact H2].
Defined.

(** ** The calculation trigger of [main] *)

(** X15: Once a run of the block has called the estimator and the estimator
    has returned, a run without a click and without a new unit count does
    nothing, whatever is selected then: no row is added a second time. *)
Theorem calc_block_rerun (button : bool)
    (city region housing_type subtype scale : string) (cs cs' : calc_state)
    (out : option outcome) (city' region' housing_type' subtype' scale' : string) :
  calc_triggered button cs = true ->
  str_falsy scale = false ->
  calc_block button city region housing_type subtype scale cs = (cs', out) ->
  raised out = false ->
  cs_units_inputted cs' = 0
  ∧ cs_last_calculated_units cs' = Some (cs_c_units cs)
  ∧ calc_block false city' region' housing_type' subtype' scale' cs' = (cs', None).
Proof.
  intros Ht Hs Hrun Hr. unfold calc_block in Hrun. rewrite Ht, Hs in Hrun. cbn in Hrun.
  destruct (calculate_student_counts city region housing_type subtype scale
              (cs_c_units cs) (cs_session cs)) as [st' [u|shown e|shown]];
    injection Hrun as <- <-; try done;
    (split; [done|]; split; [done|]; reflexivity).
Qed.

Lemma calc_block_rerun_witness :
  calc_triggered true example_calc_state = true
  ∧ str_falsy "84㎡" = false
  ∧ raised (calc_block true "서울" "서울 강남구" "아파트" "분양" "84㎡" example_calc_state).2
    = false
  ∧ length (calculated_results
              (cs_session
                 (calc_block true "서울" "서울 강남구" "아파트" "분양" "84㎡"
                    example_calc_state).1)) = 1%nat
  ∧ calc_block false "서울" "서울 강남구" "아파트" "분양" "84㎡"
      (calc_block true "서울" "서울 강남구" "아파트" "분양" "84㎡" example_calc_state).1
    = ((calc_block true "서울" "서울 강남구" "아파트" "분양" "84㎡" example_calc_state).1,
       None).
Proof.
  split; [reflexivity|]. split; [reflexivity|]. split; [reflexivity|].
  split; [reflexivity|].
  exact (proj2 (proj2
    (calc_block_rerun true "서울" "서울 강남구" "아파트" "분양" "84㎡" example_calc_state
       (calc_block true "서울" "서울 강남구" "아파트" "분양" "84㎡" example_calc_state).1
       (calc_block true "서울" "서울 강남구" "아파트" "분양" "84㎡" example_calc_state).2
       "서울" "서울 강남구" "아파트" "분양" "84㎡"
       eq_refl eq_refl (surjective_pairing _) eq_refl))).
Defined.
